(** * kithairon: labware definitions and plate surveys

    A shallow embedding of [src/kithairon/labware.py] and
    [src/kithairon/surveys/platesurvey.py].

    - Python [int] is [Z]; Python [float] is the IEEE-754 binary64 model
      [spec_float] of the standard library; [str] is [string]; [Optional[T]]
      is [option T]; [list[T]] is [list T].
    - A raised exception is the left injection of a sum, a returned value the
      right one.
    - pydantic, pydantic_xml and lxml are not part of the repository.  What
      the source declares through them (annotations, validators, serializers,
      tags and attribute names) is embedded; what they do on their own (the
      text of a scalar, the parsing of XML text) is a parameter: the Section
      variables of [Labware.Files] and the class [Pydantic.Scalars]. *)

From Stdlib Require Import ZArith String.
From Stdlib Require Import Floats.SpecFloat.
From Stdlib Require Import Numbers.DecimalString.
From stdpp Require Import base list strings.

#[local] Open Scope string_scope.
#[local] Open Scope Z_scope.
#[local] Open Scope list_scope.

(** ** Python values and exceptions *)

Module Py.

(** The exceptions the two modules raise or let through. *)
Inductive Exception : Type :=
| KeyError (msg : string)
| ValueError (msg : string)
| ValidationError (errors : list string)
| OSError (msg : string).

Definition result (A : Type) : Type := Exception + A.

Definition raise {A} (e : Exception) : result A := inl e.
Definition ret {A} (a : A) : result A := inr a.

Definition bind {A B} (m : result A) (k : A -> result B) : result B :=
  match m with
  | inl e => inl e
  | inr a => k a
  end.

(** [try: body except Exception: handler]. *)
Definition try_except {A} (body : result A) (handler : Exception -> result A)
  : result A :=
  match body with
  | inl e => handler e
  | inr a => inr a
  end.

(** [str(n)] for an [int]. *)
Definition str_of_int (n : Z) : string := NilZero.string_of_int (Z.to_int n).

#[global] Instance Exception_eq_dec : EqDecision Exception.
Proof. solve_decision. Defined.

(** A naive or offset-aware [datetime.datetime]. *)
Record datetime : Type := mkDatetime {
  year : Z; month : Z; day : Z;
  hour : Z; minute : Z; second : Z; microsecond : Z;
  utcoffset : option Z
}.

#[global] Instance datetime_eq_dec : EqDecision datetime.
Proof. solve_decision. Defined.

(** The dynamically typed values considered as input of the validators and
    output of the serializers of platesurvey.py.  A [str] is held as its UTF-8
    encoding, [bytes] and [bytearray] as their bytes. *)
Inductive PyVal : Type :=
| PyNone
| PyStr (s : string)
| PyBytes (b : string)
| PyByteArray (b : string)
| PyInt (n : Z)
| PyFloat (x : spec_float)
| PyDatetime (d : datetime).

Definition in_range (lo hi : N) (c : Ascii.ascii) : bool :=
  ((lo <=? Ascii.N_of_ascii c) && (Ascii.N_of_ascii c <=? hi))%N.

(** Well-formed UTF-8: what [bytes.decode("utf-8")] accepts. *)
Fixpoint well_formed_utf8 (b : string) : bool :=
  match b with
  | EmptyString => true
  | String c0 b1 =>
      if in_range 0 127 c0 then well_formed_utf8 b1
      else
        match b1 with
        | EmptyString => false
        | String c1 b2 =>
            if in_range 194 223 c0 then
              in_range 128 191 c1 && well_formed_utf8 b2
            else
              match b2 with
              | EmptyString => false
              | String c2 b3 =>
                  if in_range 224 239 c0 then
                    (if in_range 224 224 c0 then in_range 160 191 c1
                     else if in_range 237 237 c0 then in_range 128 159 c1
                     else in_range 128 191 c1)
                    && in_range 128 191 c2 && well_formed_utf8 b3
                  else
                    match b3 with
                    | EmptyString => false
                    | String c3 b4 =>
                        in_range 240 244 c0
                        && (if in_range 240 240 c0 then in_range 144 191 c1
                            else if in_range 244 244 c0
                                 then in_range 128 143 c1
                                 else in_range 128 191 c1)
                        && in_range 128 191 c2 && in_range 128 191 c3
                        && well_formed_utf8 b4
                    end
              end
        end
  end.

(** [b.decode("utf-8")]. *)
Definition decode (b : string) : option string :=
  if well_formed_utf8 b then Some b else None.

(** [float(n)]: round to nearest, ties to even, in binary64. *)
Definition float_of_int (n : Z) : spec_float :=
  binary_normalize 53 1024 n 0 false.

(** [x == n] for a float [x] and an int [n]: Python compares the two exact
    mathematical values. *)
Definition float_eq_int (x : spec_float) (n : Z) : bool :=
  match x with
  | S754_zero _ => (n =? 0)%Z
  | S754_infinity _ | S754_nan => false
  | S754_finite s m e =>
      let sm := if s then Z.neg m else Z.pos m in
      if (0 <=? e)%Z then (n =? sm * 2 ^ e)%Z else (n * 2 ^ (- e) =? sm)%Z
  end.

(** The integer a float equals, when there is one. *)
Definition integral_value (x : spec_float) : option Z :=
  match x with
  | S754_zero _ => Some 0
  | S754_infinity _ | S754_nan => None
  | S754_finite s m e =>
      let sm := if s then Z.neg m else Z.pos m in
      if (0 <=? e)%Z then Some (sm * 2 ^ e)
      else if (sm mod 2 ^ (- e) =? 0)%Z then Some (sm / 2 ^ (- e))
      else None
  end.

(** [a == b]. *)
Definition py_eq (a b : PyVal) : bool :=
  match a, b with
  | PyNone, PyNone => true
  | PyStr s, PyStr t => bool_decide (s = t)
  | PyBytes s, PyBytes t | PyBytes s, PyByteArray t
  | PyByteArray s, PyBytes t | PyByteArray s, PyByteArray t =>
      bool_decide (s = t)
  | PyInt n, PyInt m => (n =? m)%Z
  | PyFloat x, PyFloat y => SFeqb x y
  | PyFloat x, PyInt n | PyInt n, PyFloat x => float_eq_int x n
  | PyDatetime d, PyDatetime d' => bool_decide (d = d')
  | _, _ => false
  end.

(** [a != b]. *)
Definition py_ne (a b : PyVal) : bool := negb (py_eq a b).

(** [a is not None]. *)
Definition is_not_None (a : PyVal) : bool :=
  match a with
  | PyNone => false
  | _ => true
  end.

End Py.

Notation "'let*' x ':=' m 'in' k" := (Py.bind m (fun x => k))
  (at level 10, x name, m at level 100, k at level 200, only parsing).

(** ** The pydantic annotations that platesurvey.py uses *)

Module Pydantic.
Import Py.

(** The lax-mode conversions of pydantic from attribute text to scalars and
    the text pydantic_xml writes for a scalar. *)
Class Scalars : Type := mkScalars {
  int_of_str : string -> option Z;
  float_of_str : string -> option spec_float;
  datetime_of_str : string -> option datetime;
  (** a number taken as seconds or milliseconds since the epoch *)
  datetime_of_int : Z -> option datetime;
  datetime_of_float : spec_float -> option datetime;
  str_of_float : spec_float -> string;
  str_of_datetime : datetime -> string;
  (** the text written for an attribute whose serialized value is [None];
      [None] when no attribute is written *)
  none_attr : option string
}.

(** [BeforeValidator(func)]: [func] runs on the raw input, the validation of
    the annotated type runs on what [func] returns. *)
Definition BeforeValidator {T} (func : PyVal -> PyVal)
    (inner : PyVal -> result T) (val : PyVal) : result T :=
  inner (func val).

(** [when_used] of a serializer, restricted to the modes the source uses or
    defaults to. *)
Inductive WhenUsed : Type := always | unless_none.

(** [PlainSerializer(func, when_used=...)]: with ["unless-none"] the function
    is not used for [None], which is then serialized as [None]. *)
Definition PlainSerializer (func : PyVal -> PyVal) (when_used : WhenUsed)
    (val : PyVal) : PyVal :=
  match when_used, val with
  | unless_none, PyNone => PyNone
  | _, _ => func val
  end.

Definition type_error {T} (what : string) : result T :=
  raise (ValidationError ["Input should be a valid " +:+ what]).

Section Validators.
Context `{Scalars}.

(** The text of a [str] or of [bytes]: what the lax conversions of numbers
    and dates read. *)
Definition maybe_as_string (val : PyVal) : option (option string) :=
  match val with
  | PyStr s => Some (Some s)
  | PyBytes b => Some (decode b)
  | _ => None
  end.

(** Validation of [str]: a [str], or [bytes] or a [bytearray] that decode. *)
Definition validate_str (val : PyVal) : result string :=
  match val with
  | PyStr s => ret s
  | PyBytes b | PyByteArray b =>
      match decode b with
      | Some s => ret s
      | None => type_error "string, unable to parse raw data as a unicode string"
      end
  | _ => type_error "string"
  end.

(** Validation of [str | None]. *)
Definition validate_optional_str (val : PyVal) : result (option string) :=
  match val with
  | PyNone => ret None
  | _ => let* s := validate_str val in ret (Some s)
  end.

(** Validation of [float]: a float, an int within the range of floats, or
    text that parses. *)
Definition validate_float (val : PyVal) : result spec_float :=
  match val with
  | PyFloat x => ret x
  | PyInt n =>
      match float_of_int n with
      | S754_infinity _ => type_error "number"
      | x => ret x
      end
  | _ =>
      match maybe_as_string val with
      | Some (Some s) =>
          match float_of_str s with
          | Some x => ret x
          | None => type_error "number"
          end
      | _ => type_error "number"
      end
  end.

(** Validation of [float | None]. *)
Definition validate_optional_float (val : PyVal)
  : result (option spec_float) :=
  match val with
  | PyNone => ret None
  | _ => let* x := validate_float val in ret (Some x)
  end.

(** Validation of [int]: an int, a float without fractional part, or text
    that parses. *)
Definition validate_int (val : PyVal) : result Z :=
  match val with
  | PyInt n => ret n
  | PyFloat x =>
      match integral_value x with
      | Some n => ret n
      | None => type_error "integer"
      end
  | _ =>
      match maybe_as_string val with
      | Some (Some s) =>
          match int_of_str s with
          | Some n => ret n
          | None => type_error "integer"
          end
      | _ => type_error "integer"
      end
  end.

(** Validation of [NonNegativeInt]. *)
Definition validate_NonNegativeInt (val : PyVal) : result Z :=
  let* n := validate_int val in
  if (0 <=? n)%Z then ret n
  else raise (ValidationError ["Input should be greater than or equal to 0"]).

(** Validation of [datetime]: a datetime, a number taken as a timestamp, or
    text that parses. *)
Definition validate_datetime (val : PyVal) : result datetime :=
  let found (d : option datetime) : result datetime :=
    match d with
    | Some d => ret d
    | None => type_error "datetime"
    end in
  match val with
  | PyDatetime d => ret d
  | PyInt n => found (datetime_of_int n)
  | PyFloat x => found (datetime_of_float x)
  | _ =>
      match maybe_as_string val with
      | Some (Some s) => found (datetime_of_str s)
      | _ => type_error "datetime"
      end
  end.
End Validators.

Definition of_optional_str (v : option string) : PyVal :=
  match v with
  | Some s => PyStr s
  | None => PyNone
  end.

Definition of_optional_float (v : option spec_float) : PyVal :=
  match v with
  | Some x => PyFloat x
  | None => PyNone
  end.

End Pydantic.


(** ** labware.py *)

Module Labware.
Import Py.

(** What an attribute of an instance holds when its field is annotated [T]: a
    validated value, or the [property] object defined under that name in the
    class [cls] (see the two subclasses below). *)
Inductive Held (T : Type) : Type :=
| Value (v : T)
| PropertyOf (cls : string).

Arguments Value {T} v.
Arguments PropertyOf {T} cls.

#[global] Instance Held_eq_dec {T} `{EqDecision T} : EqDecision (Held T).
Proof. solve_decision. Defined.

(** A [str] or an [int] where an attribute is expected, as in
    [plate.usage == "SRC"]. *)
Definition held_str (s : string) : Held string := Value s.
Definition held_int (n : Z) : Held Z := Value n.
Coercion held_str : string >-> Held.
Coercion held_int : Z >-> Held.

(** The attributes declared by [class PlateInfo], in declaration order.  [F]
    is the shape of what is stored for [plateformat], [usage] and
    [welllength], the three names the subclasses define again. *)
Record PlateInfoFieldsOf (F : Type -> Type) : Type := mkPlateInfoFieldsOf {
  f_platetype : string;
  f_plateformat : F string;
  f_usage : F string;
  f_fluid : option string;
  f_manufacturer : string;
  f_lotnumber : string;
  f_partnumber : string;
  f_rows : Z;
  f_cols : Z;
  f_a1offsety : Z;
  f_centerspacingx : Z;
  f_centerspacingy : Z;
  f_plateheight : Z;
  f_skirtheight : Z;
  f_wellwidth : Z;
  f_welllength : F Z;
  f_wellcapacity : Z;
  f_bottominset : spec_float;
  f_centerwellposx : spec_float;
  f_centerwellposy : spec_float;
  f_minwellvol : option spec_float;
  f_maxwellvol : option spec_float;
  f_maxvoltotal : option spec_float;
  f_minvolume : option spec_float;
  f_dropvolume : option spec_float
}.

Arguments mkPlateInfoFieldsOf {F}.
Arguments f_platetype {F}. Arguments f_plateformat {F}.
Arguments f_usage {F}. Arguments f_fluid {F}.
Arguments f_manufacturer {F}. Arguments f_lotnumber {F}.
Arguments f_partnumber {F}. Arguments f_rows {F}. Arguments f_cols {F}.
Arguments f_a1offsety {F}. Arguments f_centerspacingx {F}.
Arguments f_centerspacingy {F}. Arguments f_plateheight {F}.
Arguments f_skirtheight {F}. Arguments f_wellwidth {F}.
Arguments f_welllength {F}. Arguments f_wellcapacity {F}.
Arguments f_bottominset {F}. Arguments f_centerwellposx {F}.
Arguments f_centerwellposy {F}. Arguments f_minwellvol {F}.
Arguments f_maxwellvol {F}. Arguments f_maxvoltotal {F}.
Arguments f_minvolume {F}. Arguments f_dropvolume {F}.

(** An instance of [PlateInfo] itself: every field is required and
    validated. *)
Abbreviation PlateInfoFields := (PlateInfoFieldsOf (fun T : Type => T)).

(** [class PlateInfoELWSrc(PlateInfo)] and [class PlateInfoELWDest(PlateInfo)]
    define [usage], [welllength] and [plateformat] as properties.  The three
    names are annotated fields of the base class, and pydantic builds a model
    class by taking a class attribute named like an annotated field as the
    default of that field and deleting it from the class.  So in the
    subclasses the three fields are optional, their default is the property
    object, the properties are gone from the class, and the attribute of an
    instance is what the instance stores: the validated value when one was
    given ([Some]), the default otherwise ([None]). *)
Record PlateInfoELWSrc : Type :=
  mkELWSrc { src_fields : PlateInfoFieldsOf option }.
Record PlateInfoELWDest : Type :=
  mkELWDest { dest_fields : PlateInfoFieldsOf option }.

(** A value of static type [PlateInfo]: an instance of the class itself or of
    a subclass.  [OfELWSrc] and [OfELWDest] are the upcasts
    [cast(list[PlateInfo], ...)] of [from_raw] applies. *)
Inductive PlateInfo : Type :=
| OfPlateInfo (f : PlateInfoFields)
| OfELWSrc (p : PlateInfoELWSrc)
| OfELWDest (p : PlateInfoELWDest).

Definition map_fields {F G : Type -> Type} (h : forall T, F T -> G T)
    (f : PlateInfoFieldsOf F) : PlateInfoFieldsOf G :=
  {| f_platetype := f_platetype f; f_plateformat := h _ (f_plateformat f);
     f_usage := h _ (f_usage f); f_fluid := f_fluid f;
     f_manufacturer := f_manufacturer f; f_lotnumber := f_lotnumber f;
     f_partnumber := f_partnumber f; f_rows := f_rows f; f_cols := f_cols f;
     f_a1offsety := f_a1offsety f; f_centerspacingx := f_centerspacingx f;
     f_centerspacingy := f_centerspacingy f;
     f_plateheight := f_plateheight f; f_skirtheight := f_skirtheight f;
     f_wellwidth := f_wellwidth f; f_welllength := h _ (f_welllength f);
     f_wellcapacity := f_wellcapacity f; f_bottominset := f_bottominset f;
     f_centerwellposx := f_centerwellposx f;
     f_centerwellposy := f_centerwellposy f;
     f_minwellvol := f_minwellvol f; f_maxwellvol := f_maxwellvol f;
     f_maxvoltotal := f_maxvoltotal f; f_minvolume := f_minvolume f;
     f_dropvolume := f_dropvolume f |}.

(** The default of a field that was not given: the property object of the
    class. *)
Definition or_default (cls : string) (T : Type) (given : option T) : Held T :=
  match given with
  | Some v => Value v
  | None => PropertyOf cls
  end.

(** The values the attributes of a plate hold, one per name of
    [PlateInfo.model_fields]. *)
Definition attributes (p : PlateInfo) : PlateInfoFieldsOf Held :=
  match p with
  | OfPlateInfo f => map_fields (fun T (v : T) => Value v) f
  | OfELWSrc p => map_fields (or_default "PlateInfoELWSrc") (src_fields p)
  | OfELWDest p => map_fields (or_default "PlateInfoELWDest") (dest_fields p)
  end.

(** Attribute access reads what the instance holds. *)
Definition platetype (p : PlateInfo) : string := f_platetype (attributes p).
Definition rows (p : PlateInfo) : Z := f_rows (attributes p).
Definition cols (p : PlateInfo) : Z := f_cols (attributes p).
Definition wellwidth (p : PlateInfo) : Z := f_wellwidth (attributes p).
Definition usage (p : PlateInfo) : Held string := f_usage (attributes p).
Definition welllength (p : PlateInfo) : Held Z := f_welllength (attributes p).
Definition plateformat (p : PlateInfo) : Held string :=
  f_plateformat (attributes p).

(** [PlateInfo.shape]; [shape] is not the name of a field, so this property
    stays one. *)
Definition shape (p : PlateInfo) : Z * Z := (rows p, cols p).

(** The four list wrappers and the two document models. *)
Record SourcePlateListELWX : Type :=
  mkSourcePlateListELWX { srcx_plates : list PlateInfo }.
Record DestinationPlateListELWX : Type :=
  mkDestinationPlateListELWX { dstx_plates : list PlateInfo }.
Record SourcePlateListELW : Type :=
  mkSourcePlateListELW { src_plates : list PlateInfoELWSrc }.
Record DestinationPlateListELW : Type :=
  mkDestinationPlateListELW { dst_plates : list PlateInfoELWDest }.

Record EchoLabwareELWX : Type := mkEchoLabwareELWX {
  x_sourceplates : SourcePlateListELWX;
  x_destinationplates : DestinationPlateListELWX
}.

Record EchoLabwareELW : Type := mkEchoLabwareELW {
  w_sourceplates : SourcePlateListELW;
  w_destinationplates : DestinationPlateListELW
}.

(** [class Labware]: one attribute, the list [_plates]. *)
Record Labware : Type := mkLabware { _plates : list PlateInfo }.

(** [Labware.__init__]: stores the list it is given, unchecked. *)
Definition __init__ (plates : list PlateInfo) : Labware := mkLabware plates.

(** [Labware.from_raw(raw: EchoLabwareELWX | EchoLabwareELW)]. *)
Definition from_raw (raw : EchoLabwareELWX + EchoLabwareELW) : Labware :=
  match raw with
  | inl x =>
      __init__ (srcx_plates (x_sourceplates x)
                ++ dstx_plates (x_destinationplates x))
  | inr w =>
      __init__ ((OfELWSrc <$> src_plates (w_sourceplates w))
                ++ (OfELWDest <$> dst_plates (w_destinationplates w)))
  end.

(** [Labware.to_elwx]. *)
Definition to_elwx (self : Labware) : EchoLabwareELWX :=
  mkEchoLabwareELWX
    (mkSourcePlateListELWX
       (filter (fun plate => usage plate = "SRC") (_plates self)))
    (mkDestinationPlateListELWX
       (filter (fun plate => usage plate = "DEST") (_plates self))).

(** [Labware.keys]. *)
Definition keys (self : Labware) : list string := platetype <$> _plates self.

(** [Labware.__getitem__]: the first plate of that type, else [KeyError]. *)
Fixpoint getitem_loop (plates : list PlateInfo) (key : string)
  : result PlateInfo :=
  match plates with
  | [] => raise (KeyError key)
  | plate :: rest =>
      if bool_decide (platetype plate = key) then ret plate
      else getitem_loop rest key
  end.

Definition __getitem__ (self : Labware) (key : string) : result PlateInfo :=
  getitem_loop (_plates self) key.

(** [Labware.add] mutates [self]: the outcome comes with the collection as it
    is after the call. *)
Definition add (self : Labware) (plate : PlateInfo) : result unit * Labware :=
  if bool_decide (platetype plate ∈ keys self) then
    (raise (KeyError ("Plate of type " +:+ platetype plate
                      +:+ " already exists.")), self)
  else
    (ret tt, mkLabware (_plates self ++ [plate])).

(** A caller that offers plates one after the other,
    [for plate in plates: try: self.add(plate) except KeyError: pass]. *)
Definition add_each (self : Labware) (plates : list PlateInfo) : Labware :=
  foldl (fun lw plate => (add lw plate).2) self plates.

(** Reading and writing files.  [open(path).read()] and the two pydantic_xml
    entry points [from_xml] / [to_xml] are outside the repository. *)
Section Files.
Variable open_read : string -> result string.
Variable ELWX_from_xml : string -> result EchoLabwareELWX.
Variable ELW_from_xml : string -> result EchoLabwareELW.
Variable ELWX_to_xml : EchoLabwareELWX -> string.

(** The body of [from_file] after the file has been read. *)
Definition from_xmlstr (xmlstr : string) : result Labware :=
  try_except
    (let* x := ELWX_from_xml xmlstr in ret (from_raw (inl x)))
    (fun _ => let* w := ELW_from_xml xmlstr in ret (from_raw (inr w))).

(** [Labware.from_file]. *)
Definition from_file (path : string) : result Labware :=
  let* xmlstr := open_read path in from_xmlstr xmlstr.

(** [Labware.to_xml]. *)
Definition to_xml (self : Labware) : string := ELWX_to_xml (to_elwx self).
End Files.

End Labware.

(** ** surveys/platesurvey.py *)

Module Survey.
Import Py Pydantic.

(** *** The two annotated scalar types *)

(** [Barcode]: [BeforeValidator(lambda val: val if val != "UnknownBarCode"
    else None)]. *)
Definition Barcode_before (val : PyVal) : PyVal :=
  if py_ne val (PyStr "UnknownBarCode") then val else PyNone.

(** [Barcode]: the function of its [PlainSerializer],
    [lambda val: val if val is not None else "UnknownBarCode"]. *)
Definition Barcode_ser (val : PyVal) : PyVal :=
  if is_not_None val then val else PyStr "UnknownBarCode".

(** [FloatNullZero]: [BeforeValidator(lambda val: val if val != 0 else
    None)]. *)
Definition FloatNullZero_before (val : PyVal) : PyVal :=
  if py_ne val (PyInt 0) then val else PyNone.

(** [FloatNullZero]: the function of its [PlainSerializer],
    [lambda val: val if val is not None else 0]. *)
Definition FloatNullZero_ser (val : PyVal) : PyVal :=
  if is_not_None val then val else PyInt 0.

(** Validation of a [Barcode] field: the annotation over [str | None]. *)
Definition Barcode_validate : PyVal -> result (option string) :=
  BeforeValidator Barcode_before validate_optional_str.

(** Serialization of a [Barcode] field; the source registers the function
    with [when_used="unless-none"]. *)
Definition Barcode_serialize (v : option string) : PyVal :=
  PlainSerializer Barcode_ser unless_none (of_optional_str v).

(** Validation of a [FloatNullZero] field: the annotation over
    [float | None]. *)
Definition FloatNullZero_validate `{Scalars}
  : PyVal -> result (option spec_float) :=
  BeforeValidator FloatNullZero_before validate_optional_float.

(** Serialization of a [FloatNullZero] field, again with
    [when_used="unless-none"]. *)
Definition FloatNullZero_serialize (v : option spec_float) : PyVal :=
  PlainSerializer FloatNullZero_ser unless_none (of_optional_float v).

(** *** The models *)

Record SignalFeature : Type := mkSignalFeature {
  feature_type : string;
  tof : spec_float;
  vpp : spec_float
}.

Record EchoSignal : Type := mkEchoSignal {
  signal_type : string;
  transducer_x : spec_float;
  transducer_y : spec_float;
  transducer_z : spec_float;
  features : list SignalFeature
}.

Record WellSurvey : Type := mkWellSurvey {
  row : Z;
  column : Z;
  well : string;
  volume : option spec_float;
  current_volume : option spec_float;
  status : string;
  fluid : string;
  fluid_units : string;
  meniscus_x : spec_float;
  meniscus_y : spec_float;
  fluid_composition : spec_float;
  dmso_homogeneous : spec_float;
  dmso_inhomogeneous : spec_float;
  fluid_thickness : spec_float;
  current_fluid_thickness : spec_float;
  bottom_thickness : spec_float;
  fluid_thickness_homogeneous : spec_float;
  fluid_thickness_imhomogeneous : spec_float;
  outlier : spec_float;
  corrective_action : string;
  echo_signal : EchoSignal
}.

Record EchoPlateSurveyXML : Type := mkEchoPlateSurveyXML {
  plate_type : string;
  plate_barcode : option string;
  timestamp : datetime;
  instrument_serial_number : string;
  vtl : Z;
  original : Z;
  data_format_version : Z;
  survey_rows : Z;
  survey_columns : Z;
  survey_total_wells : Z;
  wells : list WellSurvey;
  plate_name : option string;
  comment : option string
}.

(** *** The model validators *)

(** [check_number_of_wells]. *)
Definition check_number_of_wells (self : EchoPlateSurveyXML)
  : result EchoPlateSurveyXML :=
  if bool_decide (Z.of_nat (length (wells self)) ≠ survey_total_wells self)
  then
    raise (ValueError
             ("Number of well data items ("
              +:+ str_of_int (Z.of_nat (length (wells self)))
              +:+ ") does not match reported ("
              +:+ str_of_int (survey_total_wells self) +:+ ")"))
  else ret self.

(** Code that writes to the loguru logger: the records logged so far go in,
    the records logged afterwards come out. *)
Definition Logging (A : Type) : Type := list string -> A * list string.

Definition log_warning (msg : string) : Logging unit :=
  fun log => (tt, (log ++ [msg])%list).

(** [check_data_format_version]; the message is not an f-string, so its
    braces are logged as written. *)
Definition check_data_format_version (self : EchoPlateSurveyXML)
  : Logging (result EchoPlateSurveyXML) :=
  fun log =>
    if bool_decide (data_format_version self ≠ 1) then
      let '(_, log') :=
        log_warning
          ("Unexpected data format version {self.data_format_version}."
           +:+ " This library has been tested on version 1.") log in
      (ret self, log')
    else (ret self, log).

(** An exception raised by a validator leaves pydantic as a
    [ValidationError] carrying its message. *)
Definition in_validator {A} (r : result A) : result A :=
  match r with
  | inl (ValueError msg) => raise (ValidationError ["Value error, " +:+ msg])
  | other => other
  end.

(** Construction of an [EchoPlateSurveyXML] from field values that have
    passed the validation of their types: the two [mode="after"] validators
    run in the order of their definition. *)
Definition model_validate (self : EchoPlateSurveyXML)
  : Logging (result EchoPlateSurveyXML) :=
  fun log =>
    match in_validator (check_number_of_wells self) with
    | inl e => (inl e, log)
    | inr self =>
        let '(r, log') := check_data_format_version self log in
        (in_validator r, log')
    end.

(** *** XML trees *)

(** An [lxml] element: tag, attributes in document order, child elements. *)
#[local] Unset Elimination Schemes.
Inductive Element : Type :=
  mkElement (tag : string) (attrib : list (string * string))
            (children : list Element).
#[local] Set Elimination Schemes.

Definition tag (e : Element) : string := let '(mkElement t _ _) := e in t.
Definition attrib (e : Element) : list (string * string) :=
  let '(mkElement _ a _) := e in a.
Definition children (e : Element) : list Element :=
  let '(mkElement _ _ c) := e in c.

(** [element.get(name)]. *)
Fixpoint get (attrs : list (string * string)) (name : string)
  : option string :=
  match attrs with
  | [] => None
  | (k, v) :: rest => if String.eqb k name then Some v else get rest name
  end.

Section Mapping.
Context `{Scalars}.

(** The text pydantic_xml writes for a serialized value. *)
Definition encode_primitive (encoded : PyVal) : option string :=
  match encoded with
  | PyNone => none_attr
  | PyStr s => Some s
  | PyBytes b | PyByteArray b => decode b
  | PyInt n => Some (str_of_int n)
  | PyFloat x => Some (str_of_float x)
  | PyDatetime d => Some (str_of_datetime d)
  end.

(** The attributes of an element, from the serialized values of the
    [attr(name=...)] fields in declaration order. *)
Definition set_attributes (fields : list (string * PyVal))
  : list (string * string) :=
  omap (fun '(name, encoded) =>
          match encode_primitive encoded with
          | Some text => Some (name, text)
          | None => None
          end) fields.

(** An [attr()] field without default. *)
Definition required {T} (e : Element) (name : string)
    (validate : PyVal -> result T) : result T :=
  match get (attrib e) name with
  | Some text => validate (PyStr text)
  | None => raise (ValidationError [name +:+ ": Field required"])
  end.

(** An [attr(default=None)] field. *)
Definition optional {T} (e : Element) (name : string)
    (validate : PyVal -> result (option T)) : result (option T) :=
  match get (attrib e) name with
  | Some text => validate (PyStr text)
  | None => ret None
  end.

(** The child elements bound to a [list[Model]] field: those carrying the tag
    of the model, in document order. *)
Definition elements (e : Element) (t : string) : list Element :=
  filter (fun c => tag c = t) (children e).

(** Validation of every item of a list, in order. *)
Fixpoint validate_list {T} (validate : Element -> result T)
    (es : list Element) : result (list T) :=
  match es with
  | [] => ret []
  | e :: rest =>
      let* x := validate e in
      let* xs := validate_list validate rest in
      ret (x :: xs)
  end.

(** [SignalFeature], tag [f]. *)
Definition SignalFeature_to_xml_tree (self : SignalFeature) : Element :=
  mkElement "f"
    (set_attributes
       [("t", PyStr (feature_type self));
        ("o", PyFloat (tof self));
        ("v", PyFloat (vpp self))])
    [].

Definition SignalFeature_from_xml_tree (e : Element) : result SignalFeature :=
  let* t := required e "t" validate_str in
  let* o := required e "o" validate_float in
  let* v := required e "v" validate_float in
  ret (mkSignalFeature t o v).

(** [EchoSignal], tag [e]. *)
Definition EchoSignal_to_xml_tree (self : EchoSignal) : Element :=
  mkElement "e"
    (set_attributes
       [("t", PyStr (signal_type self));
        ("x", PyFloat (transducer_x self));
        ("y", PyFloat (transducer_y self));
        ("z", PyFloat (transducer_z self))])
    (SignalFeature_to_xml_tree <$> features self).

Definition EchoSignal_from_xml_tree (e : Element) : result EchoSignal :=
  let* t := required e "t" validate_str in
  let* x := required e "x" validate_float in
  let* y := required e "y" validate_float in
  let* z := required e "z" validate_float in
  let* fs := validate_list SignalFeature_from_xml_tree (elements e "f") in
  ret (mkEchoSignal t x y z fs).

(** [WellSurvey], tag [w]. *)
Definition WellSurvey_to_xml_tree (self : WellSurvey) : Element :=
  mkElement "w"
    (set_attributes
       [("r", PyInt (row self));
        ("c", PyInt (column self));
        ("n", PyStr (well self));
        ("vl", FloatNullZero_serialize (volume self));
        ("cvl", FloatNullZero_serialize (current_volume self));
        ("status", PyStr (status self));
        ("fld", PyStr (fluid self));
        ("fldu", PyStr (fluid_units self));
        ("x", PyFloat (meniscus_x self));
        ("y", PyFloat (meniscus_y self));
        ("s", PyFloat (fluid_composition self));
        ("fsh", PyFloat (dmso_homogeneous self));
        ("fsinh", PyFloat (dmso_inhomogeneous self));
        ("t", PyFloat (fluid_thickness self));
        ("ct", PyFloat (current_fluid_thickness self));
        ("b", PyFloat (bottom_thickness self));
        ("fth", PyFloat (fluid_thickness_homogeneous self));
        ("ftinh", PyFloat (fluid_thickness_imhomogeneous self));
        ("o", PyFloat (outlier self));
        ("a", PyStr (corrective_action self))])
    [EchoSignal_to_xml_tree (echo_signal self)].

Definition WellSurvey_from_xml_tree (e : Element) : result WellSurvey :=
  let* r := required e "r" validate_NonNegativeInt in
  let* c := required e "c" validate_NonNegativeInt in
  let* n := required e "n" validate_str in
  let* vl := required e "vl" FloatNullZero_validate in
  let* cvl := required e "cvl" FloatNullZero_validate in
  let* st := required e "status" validate_str in
  let* fld := required e "fld" validate_str in
  let* fldu := required e "fldu" validate_str in
  let* x := required e "x" validate_float in
  let* y := required e "y" validate_float in
  let* s := required e "s" validate_float in
  let* fsh := required e "fsh" validate_float in
  let* fsinh := required e "fsinh" validate_float in
  let* t := required e "t" validate_float in
  let* ct := required e "ct" validate_float in
  let* b := required e "b" validate_float in
  let* fth := required e "fth" validate_float in
  let* ftinh := required e "ftinh" validate_float in
  let* o := required e "o" validate_float in
  let* a := required e "a" validate_str in
  let* sig :=
    match elements e "e" with
    | c :: _ => EchoSignal_from_xml_tree c
    | [] => raise (ValidationError ["echo_signal: Field required"])
    end in
  ret (mkWellSurvey r c n vl cvl st fld fldu x y s fsh fsinh t ct b fth
         ftinh o a sig).

(** [EchoPlateSurveyXML.to_xml_tree], tag [platesurvey]. *)
Definition to_xml_tree (self : EchoPlateSurveyXML) : Element :=
  mkElement "platesurvey"
    (set_attributes
       [("name", PyStr (plate_type self));
        ("barcode", Barcode_serialize (plate_barcode self));
        ("date", PyDatetime (timestamp self));
        ("serial_number", PyStr (instrument_serial_number self));
        ("vtl", PyInt (vtl self));
        ("original", PyInt (original self));
        ("frmt", PyInt (data_format_version self));
        ("rows", PyInt (survey_rows self));
        ("cols", PyInt (survey_columns self));
        ("totalWells", PyInt (survey_total_wells self));
        ("plate_name", of_optional_str (plate_name self));
        ("note", of_optional_str (comment self))])
    (WellSurvey_to_xml_tree <$> wells self).

(** The fields of a [platesurvey] element, validated in declaration order. *)
Definition validate_fields (e : Element) : result EchoPlateSurveyXML :=
  let* name := required e "name" validate_str in
  let* barcode := required e "barcode" Barcode_validate in
  let* date := required e "date" validate_datetime in
  let* serial := required e "serial_number" validate_str in
  let* vtl := required e "vtl" validate_int in
  let* original := required e "original" validate_int in
  let* frmt := required e "frmt" validate_int in
  let* rows := required e "rows" validate_int in
  let* cols := required e "cols" validate_int in
  let* total := required e "totalWells" validate_int in
  let* ws := validate_list WellSurvey_from_xml_tree (elements e "w") in
  let* plate_name := optional e "plate_name" validate_optional_str in
  let* note := optional e "note" validate_optional_str in
  ret (mkEchoPlateSurveyXML name barcode date serial vtl original frmt
         rows cols total ws plate_name note).

(** [EchoPlateSurveyXML.from_xml_tree]: the fields, then the model
    validators. *)
Definition from_xml_tree (e : Element)
  : Logging (result EchoPlateSurveyXML) :=
  fun log =>
    match validate_fields e with
    | inl err => (inl err, log)
    | inr self => model_validate self log
    end.
(** *** Documents that the text conversions can carry

    The conditions on the values of a document under which each scalar is
    read back from the text written for it. *)










End Mapping.

(** The record [check_data_format_version] logs. *)
Definition format_warning : string :=
  "Unexpected data format version {self.data_format_version}."
  +:+ " This library has been tested on version 1.".

End Survey.

(** ** Concrete plates, documents and files used to run the definitions *)

Module Samples.
Import Py Pydantic Labware.

Definition plate (platetype usage : string) : PlateInfoFields :=
  {| f_platetype := platetype; f_plateformat := "384PP"; f_usage := usage;
     f_fluid := Some "DMSO"; f_manufacturer := "Labcyte";
     f_lotnumber := "-"; f_partnumber := "P-05525";
     f_rows := 16; f_cols := 24; f_a1offsety := 8990;
     f_centerspacingx := 450; f_centerspacingy := 450;
     f_plateheight := 1440; f_skirtheight := 250;
     f_wellwidth := 330; f_welllength := 340; f_wellcapacity := 65;
     f_bottominset := float_of_int 0;
     f_centerwellposx := float_of_int 6388;
     f_centerwellposy := float_of_int 4274;
     f_minwellvol := Some (float_of_int 15); f_maxwellvol := None;
     f_maxvoltotal := None; f_minvolume := None; f_dropvolume := None |}.

Definition src_384 : PlateInfo := OfPlateInfo (plate "384PP_DMSO2" "SRC").
Definition dest_1536 : PlateInfo := OfPlateInfo (plate "1536LDV_Dest" "DEST").
Definition other_96 : PlateInfo := OfPlateInfo (plate "96_Reservoir" "BOTH").

(** A plate as a fixed-geometry file gives it: no [plateformat], [usage] or
    [welllength] attribute. *)
Definition elw_plate (platetype : string) : PlateInfoFieldsOf option :=
  {| f_platetype := platetype; f_plateformat := None; f_usage := None;
     f_fluid := None; f_manufacturer := "Labcyte";
     f_lotnumber := "-"; f_partnumber := "P-05525";
     f_rows := 16; f_cols := 24; f_a1offsety := 8990;
     f_centerspacingx := 450; f_centerspacingy := 450;
     f_plateheight := 1440; f_skirtheight := 250;
     f_wellwidth := 330; f_welllength := None; f_wellcapacity := 65;
     f_bottominset := float_of_int 0;
     f_centerwellposx := float_of_int 6388;
     f_centerwellposy := float_of_int 4274;
     f_minwellvol := None; f_maxwellvol := None;
     f_maxvoltotal := None; f_minvolume := None; f_dropvolume := None |}.

Definition elw_src : PlateInfoELWSrc := mkELWSrc (elw_plate "384PP_AQ_BP").
Definition elw_dest : PlateInfoELWDest := mkELWDest (elw_plate "384_Dest").

Definition elw_doc : EchoLabwareELW :=
  mkEchoLabwareELW (mkSourcePlateListELW [elw_src])
                   (mkDestinationPlateListELW [elw_dest]).

Definition elwx_labware : Labware := __init__ [src_384; dest_1536].

(** Three files: one in each of the two shapes and one in neither. *)
Definition elwx_text : string :=
  "<EchoLabware><sourceplates><plateinfo platetype='384PP_DMSO2' usage='SRC'/>"
  +:+ "</sourceplates><destinationplates><plateinfo platetype='1536LDV_Dest'"
  +:+ " usage='DEST'/></destinationplates></EchoLabware>".

Definition elw_text : string :=
  "<EchoLabware><sourceplates><plateinfo platetype='384PP_AQ_BP'/>"
  +:+ "</sourceplates><destinationplates><plateinfo platetype='384_Dest'/>"
  +:+ "</destinationplates></EchoLabware>".

Definition open_read (path : string) : result string :=
  if String.eqb path "labware.elwx" then ret elwx_text
  else if String.eqb path "labware.elw" then ret elw_text
  else if String.eqb path "notes.xml" then ret "<notes/>"
  else raise (OSError ("No such file or directory: " +:+ path)).

(** The two parsers and the writer, restricted to these files. *)
Definition ELWX_from_xml (xmlstr : string) : result EchoLabwareELWX :=
  if String.eqb xmlstr elwx_text then ret (to_elwx elwx_labware)
  else raise (ValidationError ["usage: Field required"]).

Definition ELW_from_xml (xmlstr : string) : result EchoLabwareELW :=
  if String.eqb xmlstr elw_text then ret elw_doc
  else raise (ValidationError ["sourceplates: Field required"]).

Definition ELWX_to_xml (doc : EchoLabwareELWX) : string :=
  match srcx_plates (x_sourceplates doc) with
  | [] => "<EchoLabware><sourceplates/><destinationplates/></EchoLabware>"
  | _ :: _ => elwx_text
  end.

End Samples.

Module SurveySamples.
Import Py Pydantic Survey.

(** Scalar conversions that cover the texts of the sample survey below:
    decimal integers, floats written as a decimal integer with or without a
    trailing [.0], and ISO dates.  The samples hold no date given as a number,
    so none is converted. *)
Definition int_literal (s : string) : option Z :=
  Z.of_int <$> NilZero.int_of_string s.

Fixpoint drop_dot_zero (s : string) : string :=
  match s with
  | EmptyString => EmptyString
  | String c rest =>
      if String.eqb s ".0" then EmptyString else String c (drop_dot_zero rest)
  end.

Definition float_literal (s : string) : option spec_float :=
  float_of_int <$> int_literal (drop_dot_zero s).

(** The integral value of a float that has one. *)
Definition int_of_float (x : spec_float) : option Z :=
  match x with
  | S754_zero _ => Some 0
  | S754_finite s m e =>
      let sm := if s then Z.neg m else Z.pos m in
      if (0 <=? e)%Z then Some (sm * 2 ^ e)
      else if (sm mod 2 ^ (- e) =? 0)%Z then Some (sm / 2 ^ (- e))
      else None
  | _ => None
  end.

Definition float_text (x : spec_float) : string :=
  match int_of_float x with
  | Some n => str_of_int n +:+ ".0"
  | None => "nan"
  end.

Definition pad2 (n : Z) : string :=
  if (n <? 10)%Z then "0" +:+ str_of_int n else str_of_int n.

(** [datetime.isoformat()] of a naive datetime without microseconds. *)
Definition isoformat (d : datetime) : string :=
  str_of_int (year d) +:+ "-" +:+ pad2 (month d) +:+ "-" +:+ pad2 (day d)
  +:+ "T" +:+ pad2 (hour d) +:+ ":" +:+ pad2 (minute d) +:+ ":"
  +:+ pad2 (second d).

Definition survey_date : datetime :=
  mkDatetime 2023 10 11 12 30 45 0 None.

Definition date_literal (s : string) : option datetime :=
  if String.eqb s (isoformat survey_date) then Some survey_date else None.

(** [written_empty]: an attribute whose serialized value is [None] is written
    with the empty string; [not_written]: it is left out. *)
Definition written_empty : Scalars :=
  {| int_of_str := int_literal; float_of_str := float_literal;
     datetime_of_str := date_literal;
     datetime_of_int := fun _ => None; datetime_of_float := fun _ => None;
     str_of_float := float_text;
     str_of_datetime := isoformat; none_attr := Some "" |}.

Definition not_written : Scalars :=
  {| int_of_str := int_literal; float_of_str := float_literal;
     datetime_of_str := date_literal;
     datetime_of_int := fun _ => None; datetime_of_float := fun _ => None;
     str_of_float := float_text;
     str_of_datetime := isoformat; none_attr := None |}.

(** One surveyed well and its XML element; the element carries [vl="0"]. *)
Definition signal_A1 : EchoSignal :=
  mkEchoSignal "AVG" (float_of_int 14) (float_of_int 11) (float_of_int 9)
    [mkSignalFeature "FW BB" (float_of_int 19) (float_of_int 1)].

Definition well_A1 (vl : option spec_float) : WellSurvey :=
  {| row := 0; column := 0; well := "A1"; volume := vl;
     current_volume := Some (float_of_int 12); status := "";
     fluid := "DMSO"; fluid_units := "%";
     meniscus_x := float_of_int 0; meniscus_y := float_of_int 0;
     fluid_composition := float_of_int 90;
     dmso_homogeneous := float_of_int 90;
     dmso_inhomogeneous := float_of_int 0;
     fluid_thickness := float_of_int 2;
     current_fluid_thickness := float_of_int 2;
     bottom_thickness := float_of_int 1;
     fluid_thickness_homogeneous := float_of_int 2;
     fluid_thickness_imhomogeneous := float_of_int 0;
     outlier := float_of_int 0; corrective_action := "";
     echo_signal := signal_A1 |}.

Definition w_A1 (vl : string) : Element :=
  mkElement "w"
    [("r", "0"); ("c", "0"); ("n", "A1"); ("vl", vl); ("cvl", "12");
     ("status", ""); ("fld", "DMSO"); ("fldu", "%"); ("x", "0"); ("y", "0");
     ("s", "90"); ("fsh", "90"); ("fsinh", "0"); ("t", "2"); ("ct", "2");
     ("b", "1"); ("fth", "2"); ("ftinh", "0"); ("o", "0"); ("a", "")]
    [mkElement "e" [("t", "AVG"); ("x", "14"); ("y", "11"); ("z", "9")]
       [mkElement "f" [("t", "FW BB"); ("o", "19"); ("v", "1")] []]].

(** A survey of [total] declared wells. *)
Definition survey (barcode : option string) (total : Z)
    (ws : list WellSurvey) : EchoPlateSurveyXML :=
  {| plate_type := "384PP_DMSO2"; plate_barcode := barcode;
     timestamp := survey_date; instrument_serial_number := "E5XX-1234";
     vtl := 0; original := 0; data_format_version := 1;
     survey_rows := 16; survey_columns := 24; survey_total_wells := total;
     wells := ws; plate_name := Some "plate7"; comment := Some "" |}.

Definition platesurvey (barcode total : string) (ws : list Element)
  : Element :=
  mkElement "platesurvey"
    [("name", "384PP_DMSO2"); ("barcode", barcode);
     ("date", "2023-10-11T12:30:45"); ("serial_number", "E5XX-1234");
     ("vtl", "0"); ("original", "0"); ("frmt", "1"); ("rows", "16");
     ("cols", "24"); ("totalWells", total); ("plate_name", "plate7");
     ("note", "")]
    ws.

End SurveySamples.

(** * Properties of labware.py *)

Section LabwareFacts.
Import Py Labware.

Implicit Types (self lw : Labware) (plate p : PlateInfo).

Lemma SRC_neq_DEST : "SRC" ≠ "DEST".
Proof. discriminate. Qed.

(** The two comprehensions of [to_elwx] select disjoint sublists. *)
Lemma to_elwx_partition (l : list PlateInfo) :
  Forall (fun p => usage p = "SRC" ∨ usage p = "DEST") l →
  filter (fun p => usage p = "SRC") l ++ filter (fun p => usage p = "DEST") l
    ≡ₚ l.
Proof.
  induction 1 as [|p l Hp _ IH]; [done|].
  rewrite !filter_cons.
  destruct Hp as [Hp|Hp]; rewrite Hp.
  - rewrite decide_True, decide_False by done. simpl. by f_equiv.
  - rewrite decide_False, decide_True by done.
    rewrite <- Permutation_middle. by f_equiv.
Qed.

(** When no destination plate comes before a source plate the split and the
    concatenation cancel. *)
Lemma to_elwx_ordered (l1 l2 : list PlateInfo) :
  Forall (fun p => usage p = "SRC") l1 →
  Forall (fun p => usage p = "DEST") l2 →
  filter (fun p => usage p = "SRC") (l1 ++ l2)
    ++ filter (fun p => usage p = "DEST") (l1 ++ l2) = l1 ++ l2.
Proof.
  intros H1 H2. rewrite !filter_app.
  assert (filter (fun p => usage p = "SRC") l1 = l1) as ->.
  { clear H2. induction H1 as [|p l Hp _ IH]; [done|].
    by rewrite filter_cons_True, IH. }
  assert (filter (fun p => usage p = "SRC") l2 = []) as ->.
  { clear H1. induction H2 as [|p l Hp _ IH]; [done|].
    rewrite filter_cons_False; [done|]. by rewrite Hp. }
  assert (filter (fun p => usage p = "DEST") l1 = []) as ->.
  { clear H2. induction H1 as [|p l Hp _ IH]; [done|].
    rewrite filter_cons_False; [done|]. by rewrite Hp. }
  assert (filter (fun p => usage p = "DEST") l2 = l2) as ->.
  { clear H1. induction H2 as [|p l Hp _ IH]; [done|].
    by rewrite filter_cons_True, IH. }
  by rewrite app_nil_r.
Qed.

Lemma keys_add_ok lw p :
  keys (mkLabware (_plates lw ++ [p])) = keys lw ++ [platetype p].
Proof. unfold keys. simpl. by rewrite fmap_app. Qed.

(** What [add] does in each of its two branches. *)
Lemma add_existing lw p :
  platetype p ∈ keys lw →
  add lw p
  = (raise (KeyError ("Plate of type " +:+ platetype p +:+ " already exists.")),
     lw).
Proof. intros Hin. unfold add. by rewrite bool_decide_eq_true_2. Qed.

Lemma add_new lw p :
  platetype p ∉ keys lw →
  add lw p = (ret tt, mkLabware (_plates lw ++ [p])).
Proof. intros Hnin. unfold add. by rewrite bool_decide_eq_false_2. Qed.

(** The plates [to_elwx] writes are never more than the plates held, and
    fewer as soon as one plate is in neither comprehension. *)
Lemma to_elwx_length_le (l : list PlateInfo) :
  (length (filter (fun p => usage p = "SRC") l
           ++ filter (fun p => usage p = "DEST") l) ≤ length l)%nat.
Proof.
  rewrite length_app.
  induction l as [|p l IH]; [done|].
  rewrite !filter_cons.
  destruct (decide (usage p = "SRC")) as [Hs|Hs];
    destruct (decide (usage p = "DEST")) as [Hd|Hd]; simpl; try lia.
  rewrite Hs in Hd. by destruct SRC_neq_DEST.
Qed.

Lemma to_elwx_length_lt (l : list PlateInfo) p :
  p ∈ l → usage p ≠ "SRC" → usage p ≠ "DEST" →
  (length (filter (fun p => usage p = "SRC") l
           ++ filter (fun p => usage p = "DEST") l) < length l)%nat.
Proof.
  intros Hin Hs Hd.
  induction l as [|q l IH]; [by apply elem_of_nil in Hin|].
  apply elem_of_cons in Hin as [<-|Hin].
  - rewrite !filter_cons_False by done.
    pose proof (to_elwx_length_le l). simpl. lia.
  - specialize (IH Hin). rewrite length_app in IH |- *.
    rewrite !filter_cons.
    destruct (decide (usage q = "SRC")) as [Hqs|Hqs];
      destruct (decide (usage q = "DEST")) as [Hqd|Hqd]; simpl; try lia.
    rewrite Hqs in Hqd. by destruct SRC_neq_DEST.
Qed.

(** C7.  [add] on a plate whose platetype is already a key raises [KeyError]
    and leaves the collection as it was, same plates in the same order; on a
    plate whose platetype is new it returns normally, the plate appended. *)
Theorem add_duplicate_or_append lw p :
  (platetype p ∈ keys lw →
   ∃ msg, add lw p = (raise (KeyError msg), lw)) ∧
  (platetype p ∉ keys lw →
   add lw p = (ret tt, mkLabware (_plates lw ++ [p]))).
Proof.
  split.
  - intros Hin. eexists. by apply add_existing.
  - apply add_new.
Qed.

Lemma add_duplicate_or_append_witness :
  (∃ msg, add Samples.elwx_labware Samples.src_384
          = (raise (KeyError msg), Samples.elwx_labware)) ∧
  add Samples.elwx_labware Samples.other_96
  = (ret tt, mkLabware [Samples.src_384; Samples.dest_1536; Samples.other_96]).
Proof.
  split.
  - apply (proj1 (add_duplicate_or_append Samples.elwx_labware Samples.src_384)).
    refine (bool_decide_unpack _ _). vm_compute. exact I.
  - apply (proj2 (add_duplicate_or_append Samples.elwx_labware Samples.other_96)).
    refine (bool_decide_unpack _ _). vm_compute. exact I.
Defined.

(** C2, as the code has it.  [add] keeps platetypes unique, whether it
    appends or raises; [__init__] and [from_raw] store the plates they are
    given, so the keys of what they build are the platetypes of those plates,
    unique or not. *)
Theorem add_keeps_platetypes_unique lw p :
  (NoDup (keys lw) → NoDup (keys (add lw p).2)) ∧
  (∀ plates, keys (__init__ plates) = platetype <$> plates) ∧
  (∀ x, keys (from_raw (inl x))
        = (platetype <$> srcx_plates (x_sourceplates x))
          ++ (platetype <$> dstx_plates (x_destinationplates x))) ∧
  (∀ w, keys (from_raw (inr w))
        = (platetype ∘ OfELWSrc <$> src_plates (w_sourceplates w))
          ++ (platetype ∘ OfELWDest <$> dst_plates (w_destinationplates w))).
Proof.
  repeat split.
  - intros Hnd. unfold add. case_bool_decide as Hin; simpl; [done|].
    rewrite keys_add_ok. apply NoDup_app. repeat split; [done| |].
    + intros k Hk Hk'. apply list_elem_of_singleton in Hk'. by subst.
    + apply NoDup_singleton.
  - intros x. unfold keys. simpl. by rewrite fmap_app.
  - intros w. unfold keys. simpl. by rewrite fmap_app, <- !list_fmap_compose.
Qed.

Lemma add_keeps_platetypes_unique_witness :
  NoDup (keys (add Samples.elwx_labware Samples.other_96).2).
Proof.
  apply (proj1 (add_keeps_platetypes_unique Samples.elwx_labware
                  Samples.other_96)).
  refine (bool_decide_unpack _ _). vm_compute. exact I.
Defined.

(** C2 fails as stated: a collection built by the constructor from a list
    that names one platetype twice, and one read from a document whose two
    lists share a platetype, hold that platetype twice. *)
Lemma init_and_from_raw_keep_duplicates :
  ¬ NoDup (keys (__init__ [Samples.src_384; Samples.src_384])) ∧
  ¬ NoDup (keys (from_raw (inl (mkEchoLabwareELWX
              (mkSourcePlateListELWX [Samples.src_384])
              (mkDestinationPlateListELWX
                 [OfPlateInfo (Samples.plate "384PP_DMSO2" "DEST")]))))).
Proof.
  split; intros Hnd; apply NoDup_cons in Hnd as [Hnin _];
    apply Hnin; apply list_elem_of_singleton; reflexivity.
Qed.

(** C10.  A plate whose [usage] is neither ["SRC"] nor ["DEST"] is in neither
    list of the document [to_elwx] builds, and the collection read back from
    that document is shorter than the one written. *)
Theorem to_elwx_omits_other_usage lw p :
  p ∈ _plates lw → usage p ≠ "SRC" → usage p ≠ "DEST" →
  (p ∉ srcx_plates (x_sourceplates (to_elwx lw))) ∧
  (p ∉ dstx_plates (x_destinationplates (to_elwx lw))) ∧
  (length (_plates (from_raw (inl (to_elwx lw)))) < length (_plates lw))%nat.
Proof.
  intros Hin Hs Hd. simpl. repeat split.
  - intros [? _]%list_elem_of_filter. done.
  - intros [? _]%list_elem_of_filter. done.
  - by apply to_elwx_length_lt with p.
Qed.

Lemma to_elwx_omits_other_usage_witness :
  let lw := __init__ [Samples.src_384; Samples.other_96; Samples.dest_1536] in
  (Samples.other_96 ∉ srcx_plates (x_sourceplates (to_elwx lw))) ∧
  (Samples.other_96 ∉ dstx_plates (x_destinationplates (to_elwx lw))) ∧
  (length (_plates (from_raw (inl (to_elwx lw)))) < length (_plates lw))%nat.
Proof.
  apply (to_elwx_omits_other_usage
           (__init__ [Samples.src_384; Samples.other_96; Samples.dest_1536])
           Samples.other_96).
  - apply list_elem_of_further, list_elem_of_here.
  - discriminate.
  - discriminate.
Defined.

End LabwareFacts.

(** * Reading and writing labware files *)

Section LabwareFiles.
Import Py Labware.

Variable open_read : string → result string.
Variable ELWX_from_xml : string → result EchoLabwareELWX.
Variable ELW_from_xml : string → result EchoLabwareELW.
Variable ELWX_to_xml : EchoLabwareELWX → string.

Abbreviation from_file := (from_file open_read ELWX_from_xml ELW_from_xml).
Abbreviation from_xmlstr := (from_xmlstr ELWX_from_xml ELW_from_xml).
Abbreviation to_xml := (to_xml ELWX_to_xml).

Lemma from_file_read path xmlstr :
  open_read path = inr xmlstr → from_file path = from_xmlstr xmlstr.
Proof. intros Hread. unfold Labware.from_file. by rewrite Hread. Qed.

Lemma from_xmlstr_ELWX xmlstr x :
  ELWX_from_xml xmlstr = inr x → from_xmlstr xmlstr = inr (from_raw (inl x)).
Proof. intros Hx. unfold Labware.from_xmlstr. by rewrite Hx. Qed.

Lemma from_xmlstr_fallback xmlstr e1 :
  ELWX_from_xml xmlstr = inl e1 →
  from_xmlstr xmlstr
  = match ELW_from_xml xmlstr with
    | inl e2 => inl e2
    | inr w => inr (from_raw (inr w))
    end.
Proof.
  intros Hx. unfold Labware.from_xmlstr. rewrite Hx. simpl.
  by destruct (ELW_from_xml xmlstr).
Qed.

(** The properties [from_raw] gives the plates of a fixed-geometry document. *)
Lemma from_raw_ELW_plates w :
  _plates (from_raw (inr w))
  = (OfELWSrc <$> src_plates (w_sourceplates w))
    ++ (OfELWDest <$> dst_plates (w_destinationplates w)).
Proof. reflexivity. Qed.

(** What a plate of a subclass reports for a field that was not given. *)
Lemma ELWSrc_default_reports (p : PlateInfoELWSrc) :
  f_usage (src_fields p) = None ∧ f_welllength (src_fields p) = None
  ∧ f_plateformat (src_fields p) = None →
  usage (OfELWSrc p) = PropertyOf "PlateInfoELWSrc" ∧
  welllength (OfELWSrc p) = PropertyOf "PlateInfoELWSrc" ∧
  plateformat (OfELWSrc p) = PropertyOf "PlateInfoELWSrc".
Proof.
  unfold usage, welllength, plateformat. simpl.
  by intros (-> & -> & ->).
Qed.

Lemma ELWDest_default_reports (p : PlateInfoELWDest) :
  f_usage (dest_fields p) = None ∧ f_welllength (dest_fields p) = None
  ∧ f_plateformat (dest_fields p) = None →
  usage (OfELWDest p) = PropertyOf "PlateInfoELWDest" ∧
  welllength (OfELWDest p) = PropertyOf "PlateInfoELWDest" ∧
  plateformat (OfELWDest p) = PropertyOf "PlateInfoELWDest".
Proof.
  unfold usage, welllength, plateformat. simpl.
  by intros (-> & -> & ->).
Qed.

(** C9.  Once the file is read, [from_file] parses it in the generic shape and
    returns that result when there is one; when that attempt raises, whatever
    it raises, the fixed-geometry shape is parsed instead, and the outcome of
    that second attempt, result or exception, is the outcome of [from_file]. *)
Theorem from_file_tries_ELWX_then_ELW path xmlstr :
  open_read path = inr xmlstr →
  (∀ x, ELWX_from_xml xmlstr = inr x →
        from_file path = inr (from_raw (inl x))) ∧
  (∀ e1, ELWX_from_xml xmlstr = inl e1 →
         (∀ w, ELW_from_xml xmlstr = inr w →
               from_file path = inr (from_raw (inr w))) ∧
         (∀ e2, ELW_from_xml xmlstr = inl e2 → from_file path = inl e2)).
Proof.
  intros Hread. rewrite (from_file_read _ _ Hread). split.
  - apply from_xmlstr_ELWX.
  - intros e1 He1. rewrite (from_xmlstr_fallback _ _ He1).
    split; intros ? Hw; by rewrite Hw.
Qed.

(** C8 at a fixed-geometry file.  A file that only the fixed-geometry parser
    accepts, and whose plates come without [usage], [welllength] and
    [plateformat] as that shape has them, is read into a collection holding
    the plates of its source list followed by those of its destination list;
    what each of them reports for the three attributes is the property object
    of its class, so none reports usage ["SRC"] or ["DEST"], a [welllength]
    equal to its [wellwidth], or the plate format ["UNKNOWN"]. *)
Theorem from_file_ELW_reports_property_objects path xmlstr e1 w :
  open_read path = inr xmlstr →
  ELWX_from_xml xmlstr = inl e1 →
  ELW_from_xml xmlstr = inr w →
  Forall (fun p => f_usage (src_fields p) = None
                   ∧ f_welllength (src_fields p) = None
                   ∧ f_plateformat (src_fields p) = None)
         (src_plates (w_sourceplates w)) →
  Forall (fun p => f_usage (dest_fields p) = None
                   ∧ f_welllength (dest_fields p) = None
                   ∧ f_plateformat (dest_fields p) = None)
         (dst_plates (w_destinationplates w)) →
  ∃ lw, from_file path = inr lw ∧
        _plates lw = (OfELWSrc <$> src_plates (w_sourceplates w))
                     ++ (OfELWDest <$> dst_plates (w_destinationplates w)) ∧
        Forall (fun p => usage p = PropertyOf "PlateInfoELWSrc"
                         ∧ welllength p = PropertyOf "PlateInfoELWSrc"
                         ∧ plateformat p = PropertyOf "PlateInfoELWSrc")
               (OfELWSrc <$> src_plates (w_sourceplates w)) ∧
        Forall (fun p => usage p = PropertyOf "PlateInfoELWDest"
                         ∧ welllength p = PropertyOf "PlateInfoELWDest"
                         ∧ plateformat p = PropertyOf "PlateInfoELWDest")
               (OfELWDest <$> dst_plates (w_destinationplates w)) ∧
        Forall (fun p => usage p ≠ "SRC" ∧ usage p ≠ "DEST"
                         ∧ welllength p ≠ wellwidth p
                         ∧ plateformat p ≠ "UNKNOWN")
               (_plates lw).
Proof.
  intros Hread He1 Hw Hsrc Hdst. exists (from_raw (inr w)).
  rewrite (from_file_read _ _ Hread), (from_xmlstr_fallback _ _ He1), Hw.
  rewrite from_raw_ELW_plates.
  assert (Forall (fun p => usage p = PropertyOf "PlateInfoELWSrc"
                           ∧ welllength p = PropertyOf "PlateInfoELWSrc"
                           ∧ plateformat p = PropertyOf "PlateInfoELWSrc")
                 (OfELWSrc <$> src_plates (w_sourceplates w))) as Hs.
  { apply Forall_fmap. eapply Forall_impl; [exact Hsrc|].
    apply ELWSrc_default_reports. }
  assert (Forall (fun p => usage p = PropertyOf "PlateInfoELWDest"
                           ∧ welllength p = PropertyOf "PlateInfoELWDest"
                           ∧ plateformat p = PropertyOf "PlateInfoELWDest")
                 (OfELWDest <$> dst_plates (w_destinationplates w))) as Hd.
  { apply Forall_fmap. eapply Forall_impl; [exact Hdst|].
    apply ELWDest_default_reports. }
  split; [done|]. split; [done|]. split; [done|]. split; [done|].
  apply Forall_app; split; eapply Forall_impl; eauto;
    intros p (-> & -> & ->); repeat split; discriminate.
Qed.

(** C5, as the code has it.  When every plate has usage ["SRC"] or ["DEST"]
    and the XML layer reads the written document back with the attribute
    values it was given, reading what [to_xml] wrote yields the source plates
    followed by the destination plates: the same plates with the same
    attribute values, up to that reordering. *)
Theorem to_xml_from_xmlstr_SRC_DEST lw x :
  Forall (fun p => usage p = "SRC" ∨ usage p = "DEST") (_plates lw) →
  ELWX_from_xml (ELWX_to_xml (to_elwx lw)) = inr x →
  attributes <$> srcx_plates (x_sourceplates x)
  = attributes <$> srcx_plates (x_sourceplates (to_elwx lw)) →
  attributes <$> dstx_plates (x_destinationplates x)
  = attributes <$> dstx_plates (x_destinationplates (to_elwx lw)) →
  ∃ lw', from_xmlstr (to_xml lw) = inr lw' ∧
         attributes <$> _plates lw'
         = attributes <$> (filter (fun p => usage p = "SRC") (_plates lw)
                           ++ filter (fun p => usage p = "DEST") (_plates lw)) ∧
         attributes <$> _plates lw' ≡ₚ attributes <$> _plates lw.
Proof.
  intros Husage Hxml Hsrc Hdst. exists (from_raw (inl x)).
  unfold Labware.to_xml. rewrite (from_xmlstr_ELWX _ _ Hxml).
  assert (attributes <$> _plates (from_raw (inl x))
          = attributes <$> (filter (fun p => usage p = "SRC") (_plates lw)
                            ++ filter (fun p => usage p = "DEST") (_plates lw)))
    as Heq.
  { simpl. rewrite !fmap_app. by rewrite Hsrc, Hdst. }
  split; [done|]. split; [done|].
  rewrite Heq. by rewrite (to_elwx_partition _ Husage).
Qed.

End LabwareFiles.

Lemma from_file_tries_ELWX_then_ELW_witness :
  let from_file :=
    Labware.from_file Samples.open_read Samples.ELWX_from_xml
      Samples.ELW_from_xml in
  from_file "labware.elwx"
  = inr (Labware.from_raw (inl (Labware.to_elwx Samples.elwx_labware))) ∧
  from_file "labware.elw" = inr (Labware.from_raw (inr Samples.elw_doc)) ∧
  from_file "notes.xml"
  = inl (Py.ValidationError ["sourceplates: Field required"]).
Proof.
  intros from_file. subst from_file. split; [|split].
  - apply (proj1 (from_file_tries_ELWX_then_ELW Samples.open_read
                    Samples.ELWX_from_xml Samples.ELW_from_xml
                    "labware.elwx" Samples.elwx_text eq_refl)).
    reflexivity.
  - apply (proj1 (proj2 (from_file_tries_ELWX_then_ELW Samples.open_read
                    Samples.ELWX_from_xml Samples.ELW_from_xml
                    "labware.elw" Samples.elw_text eq_refl)
                  (Py.ValidationError ["usage: Field required"]) eq_refl)).
    reflexivity.
  - apply (proj2 (proj2 (from_file_tries_ELWX_then_ELW Samples.open_read
                    Samples.ELWX_from_xml Samples.ELW_from_xml
                    "notes.xml" "<notes/>" eq_refl)
                  (Py.ValidationError ["usage: Field required"]) eq_refl)).
    reflexivity.
Defined.

Section FixedGeometryFile.
Import Py Labware.

Lemma from_file_ELW_reports_property_objects_witness :
  ∃ lw,
    from_file Samples.open_read Samples.ELWX_from_xml Samples.ELW_from_xml
      "labware.elw" = inr lw ∧
    _plates lw = [OfELWSrc Samples.elw_src; OfELWDest Samples.elw_dest] ∧
    Forall (fun p => usage p = PropertyOf "PlateInfoELWSrc"
                     ∧ welllength p = PropertyOf "PlateInfoELWSrc"
                     ∧ plateformat p = PropertyOf "PlateInfoELWSrc")
           [OfELWSrc Samples.elw_src] ∧
    Forall (fun p => usage p = PropertyOf "PlateInfoELWDest"
                     ∧ welllength p = PropertyOf "PlateInfoELWDest"
                     ∧ plateformat p = PropertyOf "PlateInfoELWDest")
           [OfELWDest Samples.elw_dest] ∧
    Forall (fun p => usage p ≠ "SRC" ∧ usage p ≠ "DEST"
                     ∧ welllength p ≠ wellwidth p
                     ∧ plateformat p ≠ "UNKNOWN")
           (_plates lw).
Proof.
  apply (from_file_ELW_reports_property_objects Samples.open_read
           Samples.ELWX_from_xml Samples.ELW_from_xml "labware.elw"
           Samples.elw_text (ValidationError ["usage: Field required"])
           Samples.elw_doc).
  - reflexivity.
  - reflexivity.
  - reflexivity.
  - apply Forall_cons. split; [by repeat split|apply Forall_nil_2].
  - apply Forall_cons. split; [by repeat split|apply Forall_nil_2].
Defined.

End FixedGeometryFile.

Lemma to_xml_from_xmlstr_SRC_DEST_witness :
  ∃ lw',
    Labware.from_xmlstr Samples.ELWX_from_xml Samples.ELW_from_xml
      (Labware.to_xml Samples.ELWX_to_xml Samples.elwx_labware) = inr lw' ∧
    Labware.attributes <$> Labware._plates lw'
    = Labware.attributes <$> [Samples.src_384; Samples.dest_1536] ∧
    Labware.attributes <$> Labware._plates lw'
    ≡ₚ Labware.attributes <$> Labware._plates Samples.elwx_labware.
Proof.
  apply (to_xml_from_xmlstr_SRC_DEST Samples.ELWX_from_xml Samples.ELW_from_xml
           Samples.ELWX_to_xml Samples.elwx_labware
           (Labware.to_elwx Samples.elwx_labware)).
  - apply Forall_cons. split; [by left|].
    apply Forall_cons. split; [by right|]. apply Forall_nil_2.
  - reflexivity.
  - reflexivity.
  - reflexivity.
Defined.

(** C5 fails as stated.  A collection holding one plate of usage ["BOTH"] is
    written as the document of the empty collection; what is read back holds
    no plate, and no XML layer can read the two collections back apart. *)
Lemma to_xml_from_xmlstr_loses_plate :
  let lw := Labware.__init__ [Samples.other_96] in
  Labware._plates (Labware.from_raw (inl (Labware.to_elwx lw))) = [] ∧
  Labware._plates lw ≠ [] ∧
  ¬ ∃ (ELWX_from_xml : string → Py.result Labware.EchoLabwareELWX)
      (ELW_from_xml : string → Py.result Labware.EchoLabwareELW)
      (ELWX_to_xml : Labware.EchoLabwareELWX → string),
      ∀ doc, ∃ doc',
        Labware.from_xmlstr ELWX_from_xml ELW_from_xml
          (Labware.to_xml ELWX_to_xml doc) = inr doc' ∧
        Labware.attributes <$> Labware._plates doc'
        ≡ₚ Labware.attributes <$> Labware._plates doc.
Proof.
  intros lw. split; [reflexivity|]. split; [discriminate|].
  intros (fx & fw & tx & Hall).
  destruct (Hall (Labware.__init__ [Samples.other_96])) as (d1 & Hd1 & Hp1).
  destruct (Hall (Labware.__init__ [])) as (d2 & Hd2 & Hp2).
  change (Labware.to_xml tx (Labware.__init__ [Samples.other_96]))
    with (Labware.to_xml tx (Labware.__init__ [])) in Hd1.
  rewrite Hd1 in Hd2. injection Hd2 as <-.
  rewrite Hp2 in Hp1. simpl in Hp1.
  by apply Permutation_nil_cons in Hp1.
Qed.

(** * Properties of surveys/platesurvey.py *)

Section SurveyRuns.
Import Py Pydantic Survey SurveySamples.

(** The sample element is read into the sample document; [vl="0"] arrives as
    the float zero. *)
Example from_xml_tree_sample :
  @from_xml_tree written_empty
    (platesurvey "UnknownBarCode" "1" [w_A1 "0"]) []
  = (inr (survey None 1 [well_A1 (Some (S754_zero false))]), []).
Proof. vm_compute. reflexivity. Qed.

(** Two wells declared, one [w] element present. *)
Example from_xml_tree_one_of_two :
  @from_xml_tree written_empty
    (platesurvey "UnknownBarCode" "2" [w_A1 "0"]) []
  = (inl (ValidationError
            ["Value error, Number of well data items (1) does not match reported (2)"]),
     []).
Proof. vm_compute. reflexivity. Qed.

(** With the sample conversions, [vl="0"] is read as the float zero, which is
    then written as [0.0]. *)
Example FloatNullZero_zero_text :
  @FloatNullZero_validate written_empty (PyStr "0")
  = inr (Some (S754_zero false)) ∧
  @encode_primitive written_empty
    (FloatNullZero_serialize (Some (S754_zero false))) = Some "0.0".
Proof. split; vm_compute; reflexivity. Qed.

(** Reading back what is written for the sample document: the absent barcode
    comes back as the empty string when [None] is written as an empty
    attribute, and the element is rejected when [None] is not written. *)
Example write_read_sample :
  let doc := survey None 1 [well_A1 (Some (S754_zero false))] in
  @from_xml_tree written_empty (@to_xml_tree written_empty doc) []
  = (inr (survey (Some "") 1 [well_A1 (Some (S754_zero false))]), []) ∧
  @from_xml_tree not_written (@to_xml_tree not_written doc) []
  = (inl (ValidationError ["barcode: Field required"]), []).
Proof. split; vm_compute; reflexivity. Qed.

(** A document with a barcode and with volumes is read back as it was. *)
Example write_read_sample_present :
  let doc := survey (Some "P0042") 1 [well_A1 (Some (float_of_int 3))] in
  @from_xml_tree written_empty (@to_xml_tree written_empty doc) []
  = (inr doc, []).
Proof. vm_compute. reflexivity. Qed.

End SurveyRuns.

Section SurveyFacts.
Import Py Pydantic Survey.

Lemma bind_inr {A B} (m : result A) (k : A → result B) b :
  bind m k = inr b → ∃ a, m = inr a ∧ k a = inr b.
Proof. destruct m as [e|a]; simpl; [discriminate|]. eauto. Qed.

(** *** The model validators *)

Lemma check_number_of_wells_mismatch self :
  Z.of_nat (length (wells self)) ≠ survey_total_wells self →
  ∃ msg, check_number_of_wells self = raise (ValueError msg).
Proof.
  intros Hne. unfold check_number_of_wells.
  rewrite bool_decide_eq_true_2 by done. eauto.
Qed.

Lemma check_number_of_wells_inr self d :
  check_number_of_wells self = inr d →
  d = self ∧ Z.of_nat (length (wells self)) = survey_total_wells self.
Proof.
  unfold check_number_of_wells. case_bool_decide as Hc; [discriminate|].
  intros [= <-]. split; [done|].
  destruct (decide (Z.of_nat (length (wells self)) = survey_total_wells self));
    [done|contradiction].
Qed.

Lemma check_data_format_version_returns self log :
  (check_data_format_version self log).1 = ret self.
Proof. unfold check_data_format_version. by case_bool_decide. Qed.

(** Whatever [model_validate] returns is the document it was given, and that
    document has as many wells as it declares. *)
Lemma model_validate_inr self log d :
  (model_validate self log).1 = inr d →
  d = self ∧ Z.of_nat (length (wells self)) = survey_total_wells self.
Proof.
  unfold model_validate.
  destruct (check_number_of_wells self) as [e|d'] eqn:Hc.
  - destruct e; simpl; discriminate.
  - apply check_number_of_wells_inr in Hc as [-> Hlen]. simpl.
    pose proof (check_data_format_version_returns self log) as Hv.
    destruct (check_data_format_version self log) as [r log']. simpl in *.
    subst r. simpl. by intros [= <-].
Qed.

(** C1.  A document whose list of wells is not as long as
    [survey_total_wells] says, shorter or longer, is not constructed: the
    validators raise and no document is returned, and no XML element is read
    into such a document. *)
Theorem well_count_mismatch_fails `{Scalars} self log :
  Z.of_nat (length (wells self)) ≠ survey_total_wells self →
  (∃ msg, model_validate self log = (raise (ValidationError [msg]), log)) ∧
  (∀ e, (from_xml_tree e log).1 ≠ inr self).
Proof.
  intros Hne. split.
  - destruct (check_number_of_wells_mismatch self Hne) as [msg Hmsg].
    unfold model_validate. rewrite Hmsg. simpl. eauto.
  - intros e Hr. unfold from_xml_tree in Hr.
    destruct (validate_fields e) as [err|d]; simpl in Hr; [discriminate|].
    apply model_validate_inr in Hr as [-> Hlen]. contradiction.
Qed.

Lemma well_count_mismatch_fails_witness :
  let few := SurveySamples.survey None 2 [SurveySamples.well_A1 None] in
  let many := SurveySamples.survey None 0 [SurveySamples.well_A1 None] in
  ((∃ msg, model_validate few [] = (raise (ValidationError [msg]), [])) ∧
   (∀ e, (@from_xml_tree SurveySamples.written_empty e []).1 ≠ inr few)) ∧
  ((∃ msg, model_validate many [] = (raise (ValidationError [msg]), [])) ∧
   (∀ e, (@from_xml_tree SurveySamples.written_empty e []).1 ≠ inr many)).
Proof.
  intros few many. split.
  - apply (@well_count_mismatch_fails SurveySamples.written_empty few []).
    vm_compute. discriminate.
  - apply (@well_count_mismatch_fails SurveySamples.written_empty many []).
    vm_compute. discriminate.
Defined.

(** *** The barcode annotation *)

Lemma Barcode_validate_sentinel :
  Barcode_validate (PyStr "UnknownBarCode") = ret None.
Proof. reflexivity. Qed.

Lemma Barcode_validate_other s :
  s ≠ "UnknownBarCode" → Barcode_validate (PyStr s) = ret (Some s).
Proof.
  intros Hs. unfold Barcode_validate, BeforeValidator, Barcode_before, py_ne.
  simpl. by rewrite bool_decide_eq_false_2.
Qed.

Lemma Barcode_validate_None : Barcode_validate PyNone = ret None.
Proof. reflexivity. Qed.

Lemma Barcode_serialize_Some s : Barcode_serialize (Some s) = PyStr s.
Proof. reflexivity. Qed.

(** The function handed to [PlainSerializer] does map [None] to the sentinel;
    it is the [when_used] mode that keeps [None] away from it. *)
Lemma Barcode_ser_None : Barcode_ser PyNone = PyStr "UnknownBarCode".
Proof. reflexivity. Qed.

(** C4 at an absent barcode.  The serializer of [Barcode] returns [None] for an
    absent barcode, not ["UnknownBarCode"], and the attribute written is the
    one the XML layer writes for [None]. *)
Theorem Barcode_serialize_absent :
  Barcode_serialize None = PyNone ∧
  Barcode_serialize None ≠ PyStr "UnknownBarCode" ∧
  ∀ S : Scalars, @encode_primitive S (Barcode_serialize None) = @none_attr S.
Proof. repeat split. discriminate. Qed.

(** *** The zero-as-absent annotation *)

Lemma FloatNullZero_validate_int_zero `{Scalars} :
  FloatNullZero_validate (PyInt 0) = ret None.
Proof. reflexivity. Qed.

Lemma FloatNullZero_validate_float_zero `{Scalars} sign :
  FloatNullZero_validate (PyFloat (S754_zero sign)) = ret None.
Proof. reflexivity. Qed.

Lemma FloatNullZero_validate_float_nonzero `{Scalars} x :
  float_eq_int x 0 = false → FloatNullZero_validate (PyFloat x) = ret (Some x).
Proof.
  intros Hx. unfold FloatNullZero_validate, BeforeValidator,
    FloatNullZero_before, py_ne. simpl. by rewrite Hx.
Qed.

Lemma FloatNullZero_serialize_Some x :
  FloatNullZero_serialize (Some x) = PyFloat x.
Proof. reflexivity. Qed.

Lemma FloatNullZero_ser_None : FloatNullZero_ser PyNone = PyInt 0.
Proof. reflexivity. Qed.

(** A string is never equal to the integer [0], so attribute text passes the
    validator function unchanged and is validated as a float. *)
Lemma FloatNullZero_validate_text `{Scalars} text :
  FloatNullZero_validate (PyStr text)
  = match float_of_str text with
    | Some x => ret (Some x)
    | None => type_error "number"
    end.
Proof.
  unfold FloatNullZero_validate, BeforeValidator, FloatNullZero_before.
  simpl. by destruct (float_of_str text).
Qed.

(** C3 at attribute text.  However the text of an attribute is converted to a
    float, no text, ["0"] included, is read as an absent value; and an absent
    value is serialized as [None], not as [0]. *)
Theorem FloatNullZero_text_never_absent `{Scalars} :
  (∀ text, FloatNullZero_validate (PyStr text) ≠ ret None) ∧
  FloatNullZero_validate (PyStr "0") ≠ ret None ∧
  FloatNullZero_serialize None = PyNone ∧
  FloatNullZero_serialize None ≠ PyInt 0.
Proof.
  assert (∀ text, FloatNullZero_validate (PyStr text) ≠ ret None) as Htext.
  { intros text. rewrite FloatNullZero_validate_text.
    destruct (float_of_str text); discriminate. }
  repeat split; [done|apply Htext|discriminate].
Qed.

(** *** Reading back what was written *)

Ltac bind_inversion H :=
  repeat (let a := fresh "a" in
          let Ha := fresh "Ha" in
          apply bind_inr in H as (a & Ha & H)).

Lemma validate_list_Forall `{Scalars} {T} (validate : Element → result T)
    (P : T → Prop) es xs :
  (∀ e x, validate e = inr x → P x) →
  validate_list validate es = inr xs → Forall P xs.
Proof.
  intros HP. revert xs.
  induction es as [|e es IH]; intros xs Hxs; simpl in Hxs.
  - injection Hxs as <-. constructor.
  - bind_inversion Hxs. injection Hxs as <-. constructor; eauto.
Qed.

Lemma required_FloatNullZero `{Scalars} e name v :
  required e name FloatNullZero_validate = inr v → v ≠ None.
Proof.
  unfold required. destruct (get (attrib e) name) as [text|]; [|discriminate].
  rewrite FloatNullZero_validate_text.
  destruct (float_of_str text); [|discriminate]. by intros [= <-].
Qed.

(** No [w] element is read into a well without a volume. *)
Lemma WellSurvey_from_xml_tree_volumes `{Scalars} e w :
  WellSurvey_from_xml_tree e = inr w →
  volume w ≠ None ∧ current_volume w ≠ None.
Proof.
  intros Hw. unfold WellSurvey_from_xml_tree in Hw.
  bind_inversion Hw. injection Hw as <-. simpl.
  split; eapply required_FloatNullZero; eassumption.
Qed.

Lemma validate_fields_inr `{Scalars} e d :
  validate_fields e = inr d →
  required e "barcode" Barcode_validate = inr (plate_barcode d) ∧
  Forall (fun w => volume w ≠ None ∧ current_volume w ≠ None) (wells d).
Proof.
  intros Hd. unfold validate_fields in Hd.
  bind_inversion Hd. injection Hd as <-. simpl. split; [done|].
  eapply validate_list_Forall; [|eassumption].
  apply WellSurvey_from_xml_tree_volumes.
Qed.

Lemma from_xml_tree_inr `{Scalars} e log d :
  (from_xml_tree e log).1 = inr d → validate_fields e = inr d.
Proof.
  unfold from_xml_tree.
  destruct (validate_fields e) as [err|d']; simpl; [discriminate|].
  by intros [-> _]%model_validate_inr.
Qed.

(** The [barcode] attribute [to_xml_tree] writes for an absent barcode is the
    one the XML layer writes for [None]. *)
Lemma to_xml_tree_barcode_absent `{Scalars} self :
  plate_barcode self = None →
  get (attrib (to_xml_tree self)) "barcode" = none_attr.
Proof.
  intros Hb. unfold to_xml_tree, Barcode_serialize. rewrite Hb.
  destruct H as [? ? ? ? ? ? ? [text|]]; simpl; [done|].
  by destruct (plate_name self), (comment self).
Qed.

(** C6 at absent values.  A document without barcode is not read back from the
    element written for it, unless the XML layer happens to write [None] as
    ["UnknownBarCode"]; and a document with a well that lacks a volume is not
    read back from any element. *)
Theorem absent_values_not_read_back `{Scalars} self log :
  (plate_barcode self = None → none_attr ≠ Some "UnknownBarCode" →
   (from_xml_tree (to_xml_tree self) log).1 ≠ inr self) ∧
  (Exists (fun w => volume w = None ∨ current_volume w = None) (wells self) →
   ∀ e, (from_xml_tree e log).1 ≠ inr self).
Proof.
  split.
  - intros Hb Hnone Hr.
    apply from_xml_tree_inr, validate_fields_inr in Hr as [Hr _].
    unfold required in Hr. rewrite (to_xml_tree_barcode_absent _ Hb) in Hr.
    destruct none_attr as [text|]; [|discriminate].
    rewrite Barcode_validate_other, Hb in Hr by congruence. discriminate.
  - intros Hex e Hr.
    apply from_xml_tree_inr, validate_fields_inr in Hr as [_ Hall].
    apply Exists_exists in Hex as (w & Hw & Hvol).
    rewrite Forall_forall in Hall. destruct (Hall w Hw) as [Hv Hcv].
    by destruct Hvol.
Qed.

Lemma absent_values_not_read_back_witness :
  let no_barcode :=
    SurveySamples.survey None 1
      [SurveySamples.well_A1 (Some (S754_zero false))] in
  let no_volume :=
    SurveySamples.survey (Some "P0042") 1 [SurveySamples.well_A1 None] in
  (@from_xml_tree SurveySamples.written_empty
     (@to_xml_tree SurveySamples.written_empty no_barcode) []).1
  ≠ inr no_barcode ∧
  (@from_xml_tree SurveySamples.not_written
     (@to_xml_tree SurveySamples.not_written no_barcode) []).1
  ≠ inr no_barcode ∧
  ∀ e, (@from_xml_tree SurveySamples.written_empty e []).1 ≠ inr no_volume.
Proof.
  intros no_barcode no_volume. split; [|split].
  - apply (proj1 (@absent_values_not_read_back SurveySamples.written_empty
                    no_barcode [])).
    + reflexivity.
    + discriminate.
  - apply (proj1 (@absent_values_not_read_back SurveySamples.not_written
                    no_barcode [])).
    + reflexivity.
    + discriminate.
  - apply (proj2 (@absent_values_not_read_back SurveySamples.written_empty
                    no_volume [])).
    apply Exists_cons_hd. left. reflexivity.
Defined.

(** *** Documents that are read back *)







#[local] Arguments validate_float : simpl never.
#[local] Arguments validate_int : simpl never.
#[local] Arguments validate_NonNegativeInt : simpl never.
#[local] Arguments validate_datetime : simpl never.
#[local] Arguments FloatNullZero_validate : simpl never.
#[local] Arguments Barcode_validate : simpl never.







End SurveyFacts.


(** * Further properties of labware.py *)

Section LabwareLookup.
Import Py Labware.

Implicit Types (self lw : Labware) (plate p : PlateInfo) (k : string).

Lemma getitem_loop_inr plates k p :
  getitem_loop plates k = inr p →
  platetype p = k ∧
  ∃ before after, plates = before ++ p :: after
                  ∧ k ∉ (platetype <$> before).
Proof.
  induction plates as [|q plates IH]; simpl; [discriminate|].
  case_bool_decide as Hq.
  - intros [= <-]. split; [done|]. exists [], plates. split; [done|].
    by intros ?%elem_of_nil.
  - intros Hp. destruct (IH Hp) as (Hk & before & after & -> & Hnin).
    split; [done|]. exists (q :: before), after. split; [done|].
    rewrite fmap_cons. apply not_elem_of_cons. done.
Qed.

Lemma getitem_loop_missing plates k :
  k ∉ (platetype <$> plates) → getitem_loop plates k = raise (KeyError k).
Proof.
  induction plates as [|q plates IH]; simpl; [done|].
  rewrite not_elem_of_cons. intros [Hne Hnin].
  rewrite bool_decide_eq_false_2 by done. by apply IH.
Qed.

Lemma getitem_loop_present plates k :
  k ∈ (platetype <$> plates) → ∃ p, getitem_loop plates k = inr p.
Proof.
  induction plates as [|q plates IH]; simpl.
  - by intros ?%elem_of_nil.
  - intros Hin. case_bool_decide as Hq; [eauto|].
    apply elem_of_cons in Hin as [->|Hin]; [done|]. by apply IH.
Qed.

Lemma getitem_loop_app_l plates k p more :
  getitem_loop plates k = inr p → getitem_loop (plates ++ more) k = inr p.
Proof.
  induction plates as [|q plates IH]; simpl; [discriminate|].
  by case_bool_decide.
Qed.

Lemma getitem_loop_app_r plates k more :
  k ∉ (platetype <$> plates) →
  getitem_loop (plates ++ more) k = getitem_loop more k.
Proof.
  induction plates as [|q plates IH]; simpl; [done|].
  rewrite not_elem_of_cons. intros [Hne Hnin].
  rewrite bool_decide_eq_false_2 by done. by apply IH.
Qed.

(** X1.  A lookup that returns hands out a plate of the platetype asked for,
    and it is the first such plate of the collection. *)
Theorem getitem_returns_first lw k p :
  __getitem__ lw k = inr p →
  platetype p = k ∧
  ∃ before after, _plates lw = before ++ p :: after
                  ∧ k ∉ (platetype <$> before).
Proof. apply getitem_loop_inr. Qed.

Lemma getitem_returns_first_witness :
  platetype Samples.dest_1536 = "1536LDV_Dest" ∧
  ∃ before after,
    _plates Samples.elwx_labware = before ++ Samples.dest_1536 :: after
    ∧ "1536LDV_Dest" ∉ (platetype <$> before).
Proof.
  apply (getitem_returns_first Samples.elwx_labware "1536LDV_Dest"
           Samples.dest_1536).
  reflexivity.
Defined.

(** X2.  A lookup succeeds exactly for the platetypes listed by [keys]; for
    any other it raises [KeyError] carrying the platetype asked for. *)
Theorem getitem_keys lw k :
  (k ∈ keys lw → ∃ p, __getitem__ lw k = inr p) ∧
  (k ∉ keys lw → __getitem__ lw k = raise (KeyError k)).
Proof.
  split; [apply getitem_loop_present|apply getitem_loop_missing].
Qed.

Lemma getitem_keys_witness :
  (∃ p, __getitem__ Samples.elwx_labware "384PP_DMSO2" = inr p) ∧
  __getitem__ Samples.elwx_labware "96_Reservoir"
  = raise (KeyError "96_Reservoir").
Proof.
  split.
  - apply (proj1 (getitem_keys Samples.elwx_labware "384PP_DMSO2")).
    refine (bool_decide_unpack _ _). vm_compute. exact I.
  - apply (proj2 (getitem_keys Samples.elwx_labware "96_Reservoir")).
    refine (bool_decide_unpack _ _). vm_compute. exact I.
Defined.

(** X3.  A plate added under a new platetype is what a lookup of that
    platetype returns afterwards, and lookups of all other platetypes give
    what they gave before. *)
Theorem add_then_getitem lw p :
  platetype p ∉ keys lw →
  __getitem__ (add lw p).2 (platetype p) = inr p ∧
  ∀ k, k ≠ platetype p → __getitem__ (add lw p).2 k = __getitem__ lw k.
Proof.
  intros Hnew. rewrite (add_new _ _ Hnew). unfold __getitem__. simpl. split.
  - rewrite getitem_loop_app_r by done. simpl.
    by rewrite bool_decide_eq_true_2.
  - intros k Hk. destruct (decide (k ∈ keys lw)) as [Hin|Hnin].
    + destruct (getitem_loop_present _ _ Hin) as [q Hq].
      rewrite Hq. by apply getitem_loop_app_l.
    + rewrite getitem_loop_app_r by done. simpl.
      rewrite bool_decide_eq_false_2 by done.
      by rewrite getitem_loop_missing.
Qed.

Lemma add_then_getitem_witness :
  let lw' := (add Samples.elwx_labware Samples.other_96).2 in
  __getitem__ lw' "96_Reservoir" = inr Samples.other_96 ∧
  ∀ k, k ≠ "96_Reservoir" →
       __getitem__ lw' k = __getitem__ Samples.elwx_labware k.
Proof.
  apply (add_then_getitem Samples.elwx_labware Samples.other_96).
  refine (bool_decide_unpack _ _). vm_compute. exact I.
Defined.

(** X4.  Whatever the first call did, adding the same plate a second time
    raises [KeyError] and changes nothing. *)
Theorem add_twice_rejected lw p :
  ∃ msg, add (add lw p).2 p = (raise (KeyError msg), (add lw p).2).
Proof.
  eexists. apply add_existing.
  unfold add. case_bool_decide as Hin; simpl; [done|].
  rewrite keys_add_ok. apply elem_of_app. right. apply list_elem_of_here.
Qed.

Lemma add_each_snoc lw plates p :
  add_each lw (plates ++ [p]) = (add (add_each lw plates) p).2.
Proof. unfold add_each. by rewrite foldl_app. Qed.

Lemma add_prefix lw p : _plates lw `prefix_of` _plates (add lw p).2.
Proof.
  unfold add. case_bool_decide; simpl; [done|]. by apply prefix_app_r.
Qed.

Lemma add_key_present lw p : platetype p ∈ keys (add lw p).2.
Proof.
  unfold add. case_bool_decide as Hin; simpl; [done|].
  rewrite keys_add_ok. apply elem_of_app. right. apply list_elem_of_here.
Qed.

Lemma add_keys_mono lw p k : k ∈ keys lw → k ∈ keys (add lw p).2.
Proof.
  intros Hk. unfold add. case_bool_decide; simpl; [done|].
  rewrite keys_add_ok. apply elem_of_app. by left.
Qed.

Lemma add_NoDup lw p : NoDup (keys lw) → NoDup (keys (add lw p).2).
Proof.
  intros Hnd. unfold add. case_bool_decide as Hin; simpl; [done|].
  rewrite keys_add_ok. apply NoDup_app. repeat split; [done| |].
  - intros k Hk Hk'. apply list_elem_of_singleton in Hk'. by subst.
  - apply NoDup_singleton.
Qed.

(** X5.  Offering any plates one after the other to a collection with unique
    platetypes leaves the platetypes unique, keeps the plates already held in
    place at the front, and makes every offered platetype one of the keys. *)
Theorem add_each_unique lw plates :
  NoDup (keys lw) →
  NoDup (keys (add_each lw plates)) ∧
  _plates lw `prefix_of` _plates (add_each lw plates) ∧
  Forall (fun p => platetype p ∈ keys (add_each lw plates)) plates.
Proof.
  intros Hnd. induction plates as [|p plates IH] using rev_ind.
  - split; [done|]. split; [reflexivity|constructor].
  - destruct IH as (IHnd & IHpre & IHall). rewrite add_each_snoc.
    split; [|split].
    + by apply add_NoDup.
    + etrans; [exact IHpre|apply add_prefix].
    + apply Forall_app. split.
      * eapply Forall_impl; [exact IHall|]. intros q. apply add_keys_mono.
      * apply Forall_singleton, add_key_present.
Qed.

End LabwareLookup.

Lemma add_each_unique_witness :
  let offered := [Samples.src_384; Samples.src_384; Samples.dest_1536] in
  let lw := Labware.add_each (Labware.__init__ []) offered in
  NoDup (Labware.keys lw) ∧
  [] `prefix_of` Labware._plates lw ∧
  Forall (fun p => Labware.platetype p ∈ Labware.keys lw) offered.
Proof.
  apply (add_each_unique (Labware.__init__ [])
           [Samples.src_384; Samples.src_384; Samples.dest_1536]).
  apply NoDup_nil_2.
Defined.

Section LabwareSplit.
Import Py Labware.

Implicit Types (self lw : Labware) (plate p : PlateInfo) (l : list PlateInfo).

Abbreviation is_SRC := (fun p : PlateInfo => usage p = "SRC").
Abbreviation is_DEST := (fun p : PlateInfo => usage p = "DEST").

Lemma filter_SRC_all l : Forall is_SRC l → filter is_SRC l = l.
Proof.
  induction 1 as [|p l Hp _ IH]; [done|]. by rewrite filter_cons_True, IH.
Qed.

Lemma filter_DEST_all l : Forall is_DEST l → filter is_DEST l = l.
Proof.
  induction 1 as [|p l Hp _ IH]; [done|]. by rewrite filter_cons_True, IH.
Qed.

Lemma filter_SRC_none l : Forall is_DEST l → filter is_SRC l = [].
Proof.
  induction 1 as [|p l Hp _ IH]; [done|].
  rewrite filter_cons_False; [done|]. rewrite Hp. discriminate.
Qed.

Lemma filter_DEST_none l : Forall is_SRC l → filter is_DEST l = [].
Proof.
  induction 1 as [|p l Hp _ IH]; [done|].
  rewrite filter_cons_False; [done|]. rewrite Hp. discriminate.
Qed.

Lemma Forall_filter_self (P : PlateInfo → Prop) `{∀ p, Decision (P p)} l :
  Forall P (filter P l).
Proof. apply Forall_forall. by intros p [? _]%list_elem_of_filter. Qed.

(** X6.  The two lists [to_elwx] builds hold only plates of usage ["SRC"],
    respectively ["DEST"], and each keeps the plates it holds in the order the
    collection has them. *)
Theorem to_elwx_lists lw :
  Forall is_SRC (srcx_plates (x_sourceplates (to_elwx lw))) ∧
  Forall is_DEST (dstx_plates (x_destinationplates (to_elwx lw))) ∧
  srcx_plates (x_sourceplates (to_elwx lw)) `sublist_of` _plates lw ∧
  dstx_plates (x_destinationplates (to_elwx lw)) `sublist_of` _plates lw.
Proof.
  simpl. split; [apply Forall_filter_self|].
  split; [apply Forall_filter_self|].
  split; apply sublist_filter.
Qed.

(** X7.  Writing is stable: the collection read back from the document of
    [to_elwx] is written as that same document. *)
Theorem to_elwx_from_raw_to_elwx lw :
  to_elwx (from_raw (inl (to_elwx lw))) = to_elwx lw.
Proof.
  unfold to_elwx. simpl. rewrite !filter_app.
  rewrite (filter_SRC_all (filter is_SRC (_plates lw)))
    by apply Forall_filter_self.
  rewrite (filter_SRC_none (filter is_DEST (_plates lw)))
    by apply Forall_filter_self.
  rewrite (filter_DEST_none (filter is_SRC (_plates lw)))
    by apply Forall_filter_self.
  rewrite (filter_DEST_all (filter is_DEST (_plates lw)))
    by apply Forall_filter_self.
  by rewrite app_nil_r.
Qed.

Lemma filter_none (P : PlateInfo → Prop) `{∀ p, Decision (P p)} l :
  Forall (fun p => ¬ P p) l → filter P l = [].
Proof.
  induction 1 as [|p l Hp _ IH]; [done|]. by rewrite filter_cons_False.
Qed.

(** X8.  A collection read from a fixed-geometry document whose plates come
    without [usage] is written as a document without plates. *)
Theorem from_raw_ELW_to_elwx_empty w :
  Forall (fun q => f_usage (src_fields q) = None)
         (src_plates (w_sourceplates w)) →
  Forall (fun q => f_usage (dest_fields q) = None)
         (dst_plates (w_destinationplates w)) →
  to_elwx (from_raw (inr w))
  = mkEchoLabwareELWX (mkSourcePlateListELWX [])
                      (mkDestinationPlateListELWX []).
Proof.
  intros Hsrc Hdst.
  assert (Forall (fun p => usage p ≠ "SRC" ∧ usage p ≠ "DEST")
                 (_plates (from_raw (inr w)))) as Hall.
  { simpl. apply Forall_app. split; apply Forall_fmap.
    - eapply Forall_impl; [exact Hsrc|]. intros q Hq.
      unfold usage. simpl. rewrite Hq. split; discriminate.
    - eapply Forall_impl; [exact Hdst|]. intros q Hq.
      unfold usage. simpl. rewrite Hq. split; discriminate. }
  unfold to_elwx. rewrite !filter_none; [done| |].
  - eapply Forall_impl; [exact Hall|]. by intros p [_ ?].
  - eapply Forall_impl; [exact Hall|]. by intros p [? _].
Qed.

(** X9.  A generic document whose source list holds only plates of usage
    ["SRC"] and whose destination list only plates of usage ["DEST"] is the
    document [to_elwx] builds from the collection read from it. *)
Theorem to_elwx_from_raw_ELWX x :
  Forall is_SRC (srcx_plates (x_sourceplates x)) →
  Forall is_DEST (dstx_plates (x_destinationplates x)) →
  to_elwx (from_raw (inl x)) = x.
Proof.
  intros Hs Hd. destruct x as [[src] [dst]]. simpl in *.
  unfold to_elwx. simpl. rewrite !filter_app.
  rewrite (filter_SRC_all src), (filter_SRC_none dst) by done.
  rewrite (filter_DEST_none src), (filter_DEST_all dst) by done.
  by rewrite app_nil_r.
Qed.

Lemma to_elwx_selected l :
  filter is_SRC l ++ filter is_DEST l
  ≡ₚ filter (fun p => usage p = "SRC" ∨ usage p = "DEST") l.
Proof.
  induction l as [|p l IH]; [done|]. rewrite !filter_cons.
  destruct (decide (usage p = "SRC")) as [Hs|Hs];
    destruct (decide (usage p = "DEST")) as [Hd|Hd].
  - rewrite Hs in Hd. discriminate.
  - rewrite decide_True by tauto. simpl. by f_equiv.
  - rewrite decide_True by tauto. rewrite <- Permutation_middle. by f_equiv.
  - rewrite decide_False by tauto. done.
Qed.

(** X10.  Writing and reading back never invents or duplicates: every
    platetype of the collection read back is a platetype of the original, and
    unique platetypes stay unique. *)
Theorem from_raw_to_elwx_keys lw :
  keys (from_raw (inl (to_elwx lw))) ⊆ keys lw ∧
  (NoDup (keys lw) → NoDup (keys (from_raw (inl (to_elwx lw))))).
Proof.
  assert (keys (from_raw (inl (to_elwx lw)))
          ≡ₚ platetype <$> filter (fun p => usage p = "SRC" ∨ usage p = "DEST")
                             (_plates lw)) as Hperm.
  { unfold keys. simpl. by rewrite to_elwx_selected. }
  assert (platetype <$> filter (fun p => usage p = "SRC" ∨ usage p = "DEST")
                          (_plates lw) `sublist_of` keys lw) as Hsub.
  { unfold keys. apply fmap_sublist, sublist_filter. }
  split.
  - intros k Hk. rewrite Hperm in Hk. by eapply sublist_subseteq.
  - intros Hnd. rewrite Hperm. by eapply sublist_NoDup.
Qed.

End LabwareSplit.

Lemma from_raw_ELW_to_elwx_empty_witness :
  Labware.to_elwx (Labware.from_raw (inr Samples.elw_doc))
  = Labware.mkEchoLabwareELWX (Labware.mkSourcePlateListELWX [])
      (Labware.mkDestinationPlateListELWX []).
Proof.
  apply (from_raw_ELW_to_elwx_empty Samples.elw_doc).
  - apply Forall_cons. split; [reflexivity|apply Forall_nil_2].
  - apply Forall_cons. split; [reflexivity|apply Forall_nil_2].
Defined.

Lemma to_elwx_from_raw_ELWX_witness :
  Labware.to_elwx (Labware.from_raw (inl (Labware.to_elwx Samples.elwx_labware)))
  = Labware.to_elwx Samples.elwx_labware.
Proof.
  apply (to_elwx_from_raw_ELWX (Labware.to_elwx Samples.elwx_labware)).
  - apply Forall_cons. split; [reflexivity|apply Forall_nil_2].
  - apply Forall_cons. split; [reflexivity|apply Forall_nil_2].
Defined.

Lemma from_raw_to_elwx_keys_witness :
  let lw := Labware.__init__ [Samples.dest_1536; Samples.other_96;
                              Samples.src_384] in
  Labware.keys (Labware.from_raw (inl (Labware.to_elwx lw))) ⊆ Labware.keys lw ∧
  NoDup (Labware.keys (Labware.from_raw (inl (Labware.to_elwx lw)))).
Proof.
  intros lw. split.
  - apply (proj1 (from_raw_to_elwx_keys lw)).
  - apply (proj2 (from_raw_to_elwx_keys lw)).
    refine (bool_decide_unpack _ _). vm_compute. exact I.
Defined.

Section LabwareOutcome.
Import Py Labware.

Variable open_read : string → result string.
Variable ELWX_from_xml : string → result EchoLabwareELWX.
Variable ELW_from_xml : string → result EchoLabwareELW.

(** X12.  What [from_file] returns is built by [from_raw] from the document
    of one of the two parsers, the fixed-geometry one only after the generic
    one raised; what it raises is what opening the file raised or what the
    fixed-geometry parser raised after the generic one had raised too. *)
Theorem from_file_outcome path :
  (∀ lw, from_file open_read ELWX_from_xml ELW_from_xml path = inr lw →
         ∃ xmlstr, open_read path = inr xmlstr ∧
           ((∃ x, ELWX_from_xml xmlstr = inr x ∧ lw = from_raw (inl x)) ∨
            (∃ e1 w, ELWX_from_xml xmlstr = inl e1 ∧
                     ELW_from_xml xmlstr = inr w ∧ lw = from_raw (inr w)))) ∧
  (∀ err, from_file open_read ELWX_from_xml ELW_from_xml path = inl err →
          open_read path = inl err ∨
          ∃ xmlstr e1, open_read path = inr xmlstr ∧
                       ELWX_from_xml xmlstr = inl e1 ∧
                       ELW_from_xml xmlstr = inl err).
Proof.
  unfold from_file, from_xmlstr.
  destruct (open_read path) as [e0|xmlstr]; simpl.
  - split; [intros lw; discriminate|]. intros err [= <-]. by left.
  - destruct (ELWX_from_xml xmlstr) as [e1|x] eqn:Hx; simpl.
    + destruct (ELW_from_xml xmlstr) as [e2|w] eqn:Hw; simpl; split.
      * intros lw; discriminate.
      * intros err [= <-]. right. eauto.
      * intros lw [= <-]. exists xmlstr. split; [done|]. right. eauto.
      * intros err; discriminate.
    + split; [|intros err; discriminate].
      intros lw [= <-]. exists xmlstr. split; [done|]. left. eauto.
Qed.

End LabwareOutcome.

Lemma from_file_outcome_witness :
  (∃ xmlstr, Samples.open_read "labware.elw" = inr xmlstr ∧
     ((∃ x, Samples.ELWX_from_xml xmlstr = inr x
            ∧ Labware.from_raw (inr Samples.elw_doc)
              = Labware.from_raw (inl x)) ∨
      (∃ e1 w, Samples.ELWX_from_xml xmlstr = inl e1 ∧
               Samples.ELW_from_xml xmlstr = inr w ∧
               Labware.from_raw (inr Samples.elw_doc)
               = Labware.from_raw (inr w)))) ∧
  (Samples.open_read "missing.elw"
   = inl (Py.OSError "No such file or directory: missing.elw") ∨
   ∃ xmlstr e1, Samples.open_read "missing.elw" = inr xmlstr ∧
                Samples.ELWX_from_xml xmlstr = inl e1 ∧
                Samples.ELW_from_xml xmlstr
                = inl (Py.OSError "No such file or directory: missing.elw")).
Proof.
  split.
  - apply (proj1 (from_file_outcome Samples.open_read Samples.ELWX_from_xml
                    Samples.ELW_from_xml "labware.elw")).
    reflexivity.
  - apply (proj2 (from_file_outcome Samples.open_read Samples.ELWX_from_xml
                    Samples.ELW_from_xml "missing.elw")).
    reflexivity.
Defined.

(** * Further properties of surveys/platesurvey.py *)

Section SurveyCodecs.
Import Py Pydantic Survey.

Lemma float_eq_int_zero x :
  float_eq_int x 0 = true ↔ ∃ sign, x = S754_zero sign.
Proof.
  split.
  - destruct x as [sign| | |sign m e]; unfold float_eq_int;
      try discriminate; [eauto|].
    destruct (0 <=? e)%Z eqn:He.
    + intros Hz%Z.eqb_eq. apply Z.leb_le in He.
      assert (0 < 2 ^ e) by (by apply Z.pow_pos_nonneg).
      destruct sign; nia.
    + intros Hz%Z.eqb_eq. destruct sign; lia.
  - by intros [sign ->].
Qed.

Lemma Barcode_validate_text s :
  Barcode_validate (PyStr s)
  = inr (if bool_decide (s = "UnknownBarCode") then None else Some s).
Proof.
  case_bool_decide as Hs.
  - subst s. apply Barcode_validate_sentinel.
  - by apply Barcode_validate_other.
Qed.

Lemma Barcode_validate_text_inr s r :
  Barcode_validate (PyStr s) = inr r → r ≠ Some "UnknownBarCode".
Proof.
  rewrite Barcode_validate_text.
  case_bool_decide as Hs; intros [= <-]; congruence.
Qed.

(** X11.  The comparison with the sentinel text does not see [bytes]: a
    barcode given as [bytes] or as a [bytearray] that decode as UTF-8 is
    validated to the decoded text whatever it is, the sentinel text
    included. *)
Theorem Barcode_validate_bytes b :
  well_formed_utf8 b = true →
  Barcode_validate (PyBytes b) = inr (Some b) ∧
  Barcode_validate (PyByteArray b) = inr (Some b).
Proof.
  intros Hb.
  unfold Barcode_validate, BeforeValidator, Barcode_before, py_ne. simpl.
  unfold decode. by rewrite Hb.
Qed.

Lemma Barcode_validate_bytes_witness :
  Barcode_validate (PyBytes "UnknownBarCode") = inr (Some "UnknownBarCode") ∧
  Barcode_validate (PyByteArray "UnknownBarCode")
  = inr (Some "UnknownBarCode").
Proof. apply (Barcode_validate_bytes "UnknownBarCode"). reflexivity. Defined.

(** X13.  The validation of a [Barcode] field from [None] or from a [str], as
    every attribute text is, never yields the sentinel text itself. *)
Theorem Barcode_validate_never_sentinel val r :
  val = PyNone ∨ (∃ s, val = PyStr s) →
  Barcode_validate val = inr r → r ≠ Some "UnknownBarCode".
Proof.
  intros [->|[s ->]].
  - rewrite Barcode_validate_None. by intros [= <-].
  - apply Barcode_validate_text_inr.
Qed.

Lemma Barcode_validate_never_sentinel_witness :
  Some "P0042" ≠ Some "UnknownBarCode".
Proof.
  apply (Barcode_validate_never_sentinel (PyStr "P0042") (Some "P0042")).
  - right. by exists "P0042".
  - reflexivity.
Defined.

(** X14.  On values, the two halves of [Barcode] cancel: every barcode other
    than the sentinel text, and the absent barcode, validates from its
    serialized value to itself. *)
Theorem Barcode_validate_serialize v :
  v ≠ Some "UnknownBarCode" → Barcode_validate (Barcode_serialize v) = inr v.
Proof.
  intros Hv. destruct v as [s|]; [|reflexivity].
  rewrite Barcode_serialize_Some. apply Barcode_validate_other. congruence.
Qed.

Lemma Barcode_validate_serialize_witness :
  Barcode_validate (Barcode_serialize (Some "P0042")) = inr (Some "P0042") ∧
  Barcode_validate (Barcode_serialize None) = inr None.
Proof.
  split.
  - apply (Barcode_validate_serialize (Some "P0042")). discriminate.
  - apply (Barcode_validate_serialize None). discriminate.
Defined.

(** X15.  On values, [FloatNullZero] turns both zeros into the absent value
    and gives every other float, the infinities and NaN included, and the
    absent value back unchanged. *)
Theorem FloatNullZero_validate_serialize `{Scalars} :
  FloatNullZero_validate (FloatNullZero_serialize None) = inr None ∧
  (∀ sign, FloatNullZero_validate (FloatNullZero_serialize (Some (S754_zero sign)))
           = inr None) ∧
  (∀ x, (∀ sign, x ≠ S754_zero sign) →
        FloatNullZero_validate (FloatNullZero_serialize (Some x))
        = inr (Some x)).
Proof.
  split; [reflexivity|]. split; [reflexivity|].
  intros x Hx. rewrite FloatNullZero_serialize_Some.
  apply FloatNullZero_validate_float_nonzero.
  destruct (float_eq_int x 0) eqn:Hz; [|done].
  apply float_eq_int_zero in Hz as [sign ->]. by destruct (Hx sign).
Qed.

End SurveyCodecs.

Lemma FloatNullZero_validate_serialize_witness :
  @Survey.FloatNullZero_validate SurveySamples.written_empty
    (Survey.FloatNullZero_serialize (Some (Py.float_of_int 3)))
  = inr (Some (Py.float_of_int 3)) ∧
  @Survey.FloatNullZero_validate SurveySamples.written_empty
    (Survey.FloatNullZero_serialize (Some S754_nan)) = inr (Some S754_nan).
Proof.
  split.
  - apply (proj2 (proj2 (@FloatNullZero_validate_serialize
                           SurveySamples.written_empty))).
    intros sign. discriminate.
  - apply (proj2 (proj2 (@FloatNullZero_validate_serialize
                           SurveySamples.written_empty))).
    intros sign. discriminate.
Defined.

Section SurveyReading.
Import Py Pydantic Survey.

Ltac bind_inversion H :=
  repeat (let a := fresh "a" in
          let Ha := fresh "Ha" in
          apply bind_inr in H as (a & Ha & H)).

(** X16.  A document with as many wells as it declares is constructed as
    given; the log gains the one warning when the format version is not 1 and
    nothing otherwise. *)
Theorem model_validate_consistent self log :
  Z.of_nat (length (wells self)) = survey_total_wells self →
  model_validate self log
  = (inr self,
     if bool_decide (data_format_version self = 1) then log
     else log ++ [format_warning]).
Proof.
  intros Hlen. unfold model_validate, check_number_of_wells.
  rewrite bool_decide_eq_false_2 by tauto. simpl.
  unfold check_data_format_version, log_warning.
  destruct (decide (data_format_version self = 1)) as [Hv|Hv].
  - by rewrite bool_decide_eq_false_2, bool_decide_eq_true_2 by tauto.
  - by rewrite bool_decide_eq_true_2, bool_decide_eq_false_2 by tauto.
Qed.

Lemma required_inr `{Scalars} {T} e name (validate : PyVal → result T) a :
  required e name validate = inr a →
  ∃ text, get (attrib e) name = Some text ∧ validate (PyStr text) = inr a.
Proof.
  unfold required. destruct (get (attrib e) name) as [text|]; [eauto|].
  discriminate.
Qed.

Lemma required_present `{Scalars} {T} e name (validate : PyVal → result T) a :
  required e name validate = inr a → get (attrib e) name ≠ None.
Proof. intros (text & -> & _)%required_inr. discriminate. Qed.

Lemma validate_NonNegativeInt_inr `{Scalars} val n :
  validate_NonNegativeInt val = inr n → 0 ≤ n.
Proof.
  unfold validate_NonNegativeInt. intros (m & _ & Hm)%bind_inr.
  destruct (0 <=? m)%Z eqn:Hle; [|discriminate].
  injection Hm as <-. by apply Z.leb_le.
Qed.


(** What a [w] element must carry to be read. *)
Lemma WellSurvey_from_xml_tree_inv `{Scalars} e w :
  WellSurvey_from_xml_tree e = inr w →
  Forall (fun name => get (attrib e) name ≠ None)
    ["r"; "c"; "n"; "vl"; "cvl"; "status"; "fld"; "fldu"; "x"; "y"; "s";
     "fsh"; "fsinh"; "t"; "ct"; "b"; "fth"; "ftinh"; "o"; "a"] ∧
  elements e "e" ≠ [] ∧
  0 ≤ row w ∧ 0 ≤ column w.
Proof.
  intros Hw. unfold WellSurvey_from_xml_tree in Hw.
  bind_inversion Hw. injection Hw as <-. simpl.
  split; [|split; [|split]].
  - repeat (apply Forall_cons; split;
            [eapply required_present; eassumption|]).
    apply Forall_nil_2.
  - destruct (elements e "e"); [discriminate|done].
  - match goal with
    | Hr : required e "r" _ = inr _ |- _ =>
        destruct (required_inr _ _ _ _ Hr) as (? & _ & Hv);
        exact (validate_NonNegativeInt_inr _ _ Hv)
    end.
  - match goal with
    | Hc : required e "c" _ = inr _ |- _ =>
        destruct (required_inr _ _ _ _ Hc) as (? & _ & Hv);
        exact (validate_NonNegativeInt_inr _ _ Hv)
    end.
Qed.

(** Every step [validate_fields] took when it returns a document. *)
Lemma validate_fields_inv `{Scalars} e d :
  validate_fields e = inr d →
  required e "name" validate_str = inr (plate_type d) ∧
  required e "barcode" Barcode_validate = inr (plate_barcode d) ∧
  required e "date" validate_datetime = inr (timestamp d) ∧
  required e "serial_number" validate_str = inr (instrument_serial_number d) ∧
  required e "vtl" validate_int = inr (vtl d) ∧
  required e "original" validate_int = inr (original d) ∧
  required e "frmt" validate_int = inr (data_format_version d) ∧
  required e "rows" validate_int = inr (survey_rows d) ∧
  required e "cols" validate_int = inr (survey_columns d) ∧
  required e "totalWells" validate_int = inr (survey_total_wells d) ∧
  validate_list WellSurvey_from_xml_tree (elements e "w") = inr (wells d) ∧
  optional e "plate_name" validate_optional_str = inr (plate_name d) ∧
  optional e "note" validate_optional_str = inr (comment d).
Proof.
  intros Hd. unfold validate_fields in Hd.
  bind_inversion Hd. injection Hd as <-. simpl. repeat split; assumption.
Qed.

Lemma optional_str_inr `{Scalars} e name v :
  optional e name validate_optional_str = inr v → v = get (attrib e) name.
Proof.
  unfold optional. destruct (get (attrib e) name) as [text|]; simpl;
    by intros [= <-].
Qed.

Lemma required_str_inr `{Scalars} e name s :
  required e name validate_str = inr s → get (attrib e) name = Some s.
Proof.
  intros (text & -> & Hs)%required_inr. f_equal.
  change (inr text = inr s :> result string) in Hs. by injection Hs.
Qed.

(** X17.  Every document read from an element has as many wells as it
    declares, a barcode other than the sentinel text if it has one, and in
    every well a row and a column that are not negative and both volumes
    present. *)
Theorem from_xml_tree_invariants `{Scalars} e log d :
  (from_xml_tree e log).1 = inr d →
  Z.of_nat (length (wells d)) = survey_total_wells d ∧
  plate_barcode d ≠ Some "UnknownBarCode" ∧
  Forall (fun w => 0 ≤ row w ∧ 0 ≤ column w
                   ∧ volume w ≠ None ∧ current_volume w ≠ None) (wells d).
Proof.
  intros Hr. unfold from_xml_tree in Hr.
  destruct (validate_fields e) as [err|d'] eqn:Hf; simpl in Hr; [discriminate|].
  apply model_validate_inr in Hr as [-> Hlen]. split; [done|].
  pose proof (validate_fields_inv _ _ Hf)
    as (_ & Hb & _ & _ & _ & _ & _ & _ & _ & _ & Hws & _).
  split.
  - apply required_inr in Hb as (text & _ & Hb).
    by eapply Barcode_validate_text_inr.
  - eapply validate_list_Forall; [|exact Hws].
    intros c w Hw.
    destruct (WellSurvey_from_xml_tree_inv _ _ Hw) as (_ & _ & Hrow & Hcol).
    destruct (WellSurvey_from_xml_tree_volumes _ _ Hw) as [Hv Hcv]. done.
Qed.

(** X18.  Reading adds at most the one warning to the log and adds it only
    when it returns a document whose format version is not 1; a failed read
    leaves the log as it was. *)
Theorem from_xml_tree_log `{Scalars} e log :
  match (from_xml_tree e log).1 with
  | inl _ => (from_xml_tree e log).2 = log
  | inr d =>
      (from_xml_tree e log).2
      = if bool_decide (data_format_version d = 1) then log
        else log ++ [format_warning]
  end.
Proof.
  unfold from_xml_tree.
  destruct (validate_fields e) as [err|d] eqn:Hf; simpl; [done|].
  destruct (decide (Z.of_nat (length (wells d)) = survey_total_wells d))
    as [Hlen|Hlen].
  - by rewrite (model_validate_consistent _ _ Hlen).
  - unfold model_validate, check_number_of_wells.
    by rewrite bool_decide_eq_true_2.
Qed.

(** X19.  An element that lacks one of the ten header attributes declared
    without default is not read, and the log stays as it was. *)
Theorem from_xml_tree_missing_attribute `{Scalars} e log name :
  name ∈ ["name"; "barcode"; "date"; "serial_number"; "vtl"; "original";
          "frmt"; "rows"; "cols"; "totalWells"] →
  get (attrib e) name = None →
  ∃ err, from_xml_tree e log = (inl err, log).
Proof.
  intros Hname Hget. unfold from_xml_tree.
  destruct (validate_fields e) as [err|d] eqn:Hf; [eauto|]. exfalso.
  pose proof (validate_fields_inv _ _ Hf)
    as (H1 & H2 & H3 & H4 & H5 & H6 & H7 & H8 & H9 & H10 & _).
  repeat (apply elem_of_cons in Hname as [->|Hname];
          [match goal with
           | Hreq : required e ?n _ = inr _,
             Hg : get (attrib e) ?n = None |- _ =>
               exact (required_present _ _ _ _ Hreq Hg)
           end|]).
  by apply elem_of_nil in Hname.
Qed.


(** X21.  The texts of a document read are the texts of the element: plate
    type and serial number are the [name] and [serial_number] attributes, plate
    name and comment are the [plate_name] and [note] attributes when these are
    there and absent otherwise, and the barcode is the [barcode] attribute
    unless that is the sentinel text. *)
Theorem from_xml_tree_texts `{Scalars} e log d :
  (from_xml_tree e log).1 = inr d →
  get (attrib e) "name" = Some (plate_type d) ∧
  get (attrib e) "serial_number" = Some (instrument_serial_number d) ∧
  plate_name d = get (attrib e) "plate_name" ∧
  comment d = get (attrib e) "note" ∧
  ∃ text, get (attrib e) "barcode" = Some text ∧
          plate_barcode d
          = if bool_decide (text = "UnknownBarCode") then None else Some text.
Proof.
  intros Hr%from_xml_tree_inr.
  pose proof (validate_fields_inv _ _ Hr)
    as (Hn & Hb & _ & Hs & _ & _ & _ & _ & _ & _ & _ & Hp & Hc).
  split; [by apply required_str_inr|].
  split; [by apply required_str_inr|].
  split; [by apply optional_str_inr|].
  split; [by apply optional_str_inr|].
  apply required_inr in Hb as (text & Hget & Hb). exists text.
  split; [done|]. case_bool_decide as Ht.
  - subst text. rewrite Barcode_validate_sentinel in Hb.
    unfold ret in Hb. congruence.
  - rewrite (Barcode_validate_other _ Ht) in Hb.
    unfold ret in Hb. congruence.
Qed.


End SurveyReading.

Section SurveyReadingRuns.
Import Py Pydantic Survey SurveySamples.

Lemma model_validate_consistent_witness :
  let doc := survey None 1 [well_A1 None] in
  model_validate doc ["started"] = (inr doc, ["started"]).
Proof.
  intros doc. apply (model_validate_consistent doc ["started"]). reflexivity.
Defined.

Lemma from_xml_tree_invariants_witness :
  let doc := survey None 1 [well_A1 (Some (S754_zero false))] in
  Z.of_nat (length (wells doc)) = survey_total_wells doc ∧
  plate_barcode doc ≠ Some "UnknownBarCode" ∧
  Forall (fun w => 0 ≤ row w ∧ 0 ≤ column w
                   ∧ volume w ≠ None ∧ current_volume w ≠ None) (wells doc).
Proof.
  intros doc.
  apply (@from_xml_tree_invariants written_empty
           (platesurvey "UnknownBarCode" "1" [w_A1 "0"]) [] doc).
  vm_compute. reflexivity.
Defined.

Lemma from_xml_tree_missing_attribute_witness :
  ∃ err,
    @from_xml_tree written_empty
      (mkElement "platesurvey" [("name", "384PP_DMSO2")] []) ["started"]
    = (inl err, ["started"]).
Proof.
  apply (@from_xml_tree_missing_attribute written_empty
           (mkElement "platesurvey" [("name", "384PP_DMSO2")] []) ["started"]
           "barcode").
  - apply list_elem_of_further, list_elem_of_here.
  - reflexivity.
Defined.


Lemma from_xml_tree_texts_witness :
  let e := platesurvey "UnknownBarCode" "1" [w_A1 "0"] in
  let doc := survey None 1 [well_A1 (Some (S754_zero false))] in
  get (attrib e) "name" = Some (plate_type doc) ∧
  get (attrib e) "serial_number" = Some (instrument_serial_number doc) ∧
  plate_name doc = get (attrib e) "plate_name" ∧
  comment doc = get (attrib e) "note" ∧
  ∃ text, get (attrib e) "barcode" = Some text ∧
          plate_barcode doc
          = if bool_decide (text = "UnknownBarCode") then None else Some text.
Proof.
  intros e doc. apply (@from_xml_tree_texts written_empty e [] doc).
  vm_compute. reflexivity.
Defined.


End SurveyReadingRuns.

Section LabwareAddWrite.
Import Py Labware.

(** X24.  A plate added under a new platetype appears at the end of the source
    list of the document written afterwards when its usage is ["SRC"], at the
    end of the destination list when it is ["DEST"], and in neither list
    otherwise; the entries written before are unchanged. *)
Theorem add_then_to_elwx (lw : Labware) (p : PlateInfo) :
  platetype p ∉ keys lw →
  srcx_plates (x_sourceplates (to_elwx (add lw p).2))
  = srcx_plates (x_sourceplates (to_elwx lw))
    ++ (if bool_decide (usage p = "SRC") then [p] else []) ∧
  dstx_plates (x_destinationplates (to_elwx (add lw p).2))
  = dstx_plates (x_destinationplates (to_elwx lw))
    ++ (if bool_decide (usage p = "DEST") then [p] else []).
Proof.
  intros Hnew. rewrite (add_new _ _ Hnew). simpl. rewrite !filter_app.
  split; f_equal; rewrite filter_cons, filter_nil; case_bool_decide;
    [by rewrite decide_True|by rewrite decide_False
    |by rewrite decide_True|by rewrite decide_False].
Qed.

Lemma add_then_to_elwx_witness :
  srcx_plates (x_sourceplates
                 (to_elwx (add Samples.elwx_labware Samples.other_96).2))
  = [Samples.src_384] ++ [] ∧
  dstx_plates (x_destinationplates
                 (to_elwx (add Samples.elwx_labware Samples.other_96).2))
  = [Samples.dest_1536] ++ [].
Proof.
  apply (add_then_to_elwx Samples.elwx_labware Samples.other_96).
  refine (bool_decide_unpack _ _). vm_compute. exact I.
Defined.

End LabwareAddWrite.
